(** * Form 471 / Form 470 linking agent: a shallow embedding and its properties

    The development follows the Python sources:
    - [asana_form_agent.py]: the tools ([get_qa_tasks], the [move_task_to_*]
      family, [download_pdf_from_task], [extract_form_info], [search_form470],
      [mark_task_complete], [create_manual_review_subtask]);
    - [intelligent_qa_agent.py]: the driver [process_single_task];
    - [run_qa_agent.py]: the driver [process_qa_tasks].

    Modelling conventions.
    - A Python [str] is a list of characters of type [ascii] (its UTF-8
      bytes).  The classes [\d] and [\s], [str.lower] and [re.IGNORECASE] are
      the ASCII ones; the model is exact on ASCII text.
    - A Python [dict] with string keys is a [gmap string _]; [d.get(k)] is
      [d !! k], a missing key and Python's [None] are both [None].
    - Truthiness ([if x:]) of a string is "not empty", of a dict "not empty".
    - Calls into the outside world (the Asana client, [requests.get], the
      file system, pdfplumber) are operations of the class [Services]; each
      one may raise.  A computation threads the state of the world and the
      list of the calls issued so far.
    - [print] calls only log and are left out. *)

From Stdlib Require Import Ascii String List ZArith Lia Bool.
From stdpp Require Import gmap strings list pretty.

Set Default Proof Using "Type".
Open Scope string_scope.
Open Scope list_scope.
Open Scope nat_scope.

(** ** Python strings *)

Definition str := list ascii.

(** A string literal of the source. *)
Definition py (s : string) : str := list_ascii_of_string s.

Definition code (c : ascii) : nat := nat_of_ascii c.

(** [\d] *)
Definition is_digit (c : ascii) : bool :=
  ((48 <=? code c) && (code c <=? 57))%nat.

(** [\s], and the characters removed by [str.strip()]:
    tab, LF, VT, FF, CR, FS, GS, RS, US and the space. *)
Definition is_space (c : ascii) : bool :=
  (((9 <=? code c) && (code c <=? 13))
   || ((28 <=? code c) && (code c <=? 32)))%nat.

(** [str.lower()] on one character. *)
Definition lower_char (c : ascii) : ascii :=
  if ((65 <=? code c) && (code c <=? 90))%nat
  then ascii_of_nat (code c + 32) else c.

Definition lower (s : str) : str := map lower_char s.

Definition newline : ascii := ascii_of_nat 10.

Definition str_eqb (a b : str) : bool := bool_decide (a = b).

Fixpoint take_while (p : ascii -> bool) (s : str) : str :=
  match s with
  | c :: s' => if p c then c :: take_while p s' else []
  | [] => []
  end.

Fixpoint drop_while (p : ascii -> bool) (s : str) : str :=
  match s with
  | c :: s' => if p c then drop_while p s' else s
  | [] => []
  end.

(** [s.startswith(p)] *)
Fixpoint startswith (p s : str) : bool :=
  match p, s with
  | [], _ => true
  | a :: p', b :: s' => bool_decide (a = b) && startswith p' s'
  | _ :: _, [] => false
  end.

(** [s.endswith(p)] *)
Definition endswith (p s : str) : bool := startswith (rev p) (rev s).

(** [sub in s] *)
Fixpoint contains (sub s : str) : bool :=
  startswith sub s
  || match s with
     | [] => false
     | _ :: s' => contains sub s'
     end.

(** [s.strip()] *)
Definition strip (s : str) : str :=
  rev (drop_while is_space (rev (drop_while is_space s))).

(** Truthiness of a string, and of the result of [dict.get]. *)
Definition nonempty (s : str) : bool :=
  match s with [] => false | _ :: _ => true end.

Definition truthy (o : option str) : bool :=
  match o with Some s => nonempty s | None => false end.

(** ** Regular expressions

    The fragment of Python's [re] used by the source: literals, character
    classes, greedy repetition of a class ([*]), an optional character
    ([?]), concatenation and one capturing group.  Every pattern of the
    source has its group outside any repetition, so [group(1)] is set
    whenever the pattern matches.  The matcher backtracks as Python's does: a greedy repetition
    first takes as many characters as it can and gives them back one at a
    time while the rest of the pattern fails. *)

Inductive regex : Type :=
| RChar (p : ascii -> bool)
| RStar (p : ascii -> bool)
| ROpt (p : ascii -> bool)
| RCat (r1 r2 : regex)
| REps
| RGroup (r : regex).

(** The continuation receives the rest of the input and the text of
    group 1 so far; it answers with group 1 of the whole match. *)
Definition cont := str -> str -> option str.

Fixpoint rstar (p : ascii -> bool) (k : cont) (s g : str) : option str :=
  match s with
  | c :: s' =>
      if p c then
        match rstar p k s' g with
        | Some x => Some x
        | None => k s g
        end
      else k s g
  | [] => k [] g
  end.

Fixpoint rmatch (r : regex) (k : cont) (s g : str) : option str :=
  match r with
  | RChar p =>
      match s with
      | c :: s' => if p c then k s' g else None
      | [] => None
      end
  | RStar p => rstar p k s g
  | ROpt p =>
      match s with
      | c :: s' =>
          if p c then
            match k s' g with
            | Some x => Some x
            | None => k s g
            end
          else k s g
      | [] => k [] g
      end
  | RCat r1 r2 => rmatch r1 (rmatch r2 k) s g
  | REps => k s g
  | RGroup r1 =>
      rmatch r1 (fun s' _ => k s' (take (length s - length s') s)) s g
  end.

(** [re.match]: anchored at the start of [s]; the result is [group(1)]. *)
Definition re_match (r : regex) (s : str) : option str :=
  rmatch r (fun _ g => Some g) s [].

(** [re.search]: the first position of the text where the pattern matches. *)
Fixpoint re_search (r : regex) (s : str) : option str :=
  match re_match r s with
  | Some g => Some g
  | None =>
      match s with
      | [] => None
      | _ :: s' => re_search r s'
      end
  end.

(** Pattern builders. *)
Definition ci_char (l : ascii) : ascii -> bool :=
  fun c => bool_decide (lower_char c = lower_char l).

(** A literal under [re.IGNORECASE], followed by [r]. *)
Fixpoint lit_ci (l : str) (r : regex) : regex :=
  match l with
  | [] => r
  | c :: l' => RCat (RChar (ci_char c)) (lit_ci l' r)
  end.

(** [p+] *)
Definition rplus (p : ascii -> bool) : regex := RCat (RChar p) (RStar p).

(** [p{n}] *)
Fixpoint rrep (n : nat) (p : ascii -> bool) : regex :=
  match n with
  | O => REps
  | S n' => RCat (RChar p) (rrep n' p)
  end.

(** [[:\s]] *)
Definition colon_or_space (c : ascii) : bool :=
  bool_decide (c = ":"%char) || is_space c.

(** [[^\n]] and [.] (without DOTALL) *)
Definition not_newline (c : ascii) : bool := negb (bool_decide (c = newline)).

(** [Application Number[:\s]*(\d+)], IGNORECASE *)
Definition application_number_re : regex :=
  lit_ci (py "Application Number")
    (RCat (RStar colon_or_space) (RGroup (rplus is_digit))).

(** [(\d{9})] *)
Definition nine_digits_re : regex := RGroup (rrep 9 is_digit).

(** [Billed Entity Name[:\s]*([^\n]+)], IGNORECASE *)
Definition billed_entity_re : regex :=
  lit_ci (py "Billed Entity Name")
    (RCat (RStar colon_or_space) (RGroup (rplus not_newline))).

(** [Establishing FCC Form 470[:\s]*(\d+)], IGNORECASE *)
Definition establishing_re : regex :=
  lit_ci (py "Establishing FCC Form 470")
    (RCat (RStar colon_or_space) (RGroup (rplus is_digit))).

(** [Establishing.*Form 470[:\s]*(\d+)], IGNORECASE *)
Definition establishing_loose_re : regex :=
  lit_ci (py "Establishing")
    (RCat (RStar not_newline)
       (lit_ci (py "Form 470")
          (RCat (RStar colon_or_space) (RGroup (rplus is_digit))))).

(** [(\d{15})] *)
Definition fifteen_digits_re : regex := RGroup (rrep 15 is_digit).

(** ** The field extractor: [extract_form_info], from the text on *)

(** The [if]/[elif]/[else] on the lowered text. *)
Definition classify_form_type (text : str) : str :=
  if contains (py "form 471") (lower text) || contains (py "471") (lower text)
  then py "471"
  else if contains (py "form 470") (lower text) || contains (py "470") (lower text)
  then py "470"
  else py "unknown".

(** The application number; [None] stands for the early [return {}]. *)
Definition find_application_number (text : str) : option str :=
  match re_search application_number_re text with
  | Some g => Some g
  | None => re_search nine_digits_re text
  end.

Definition find_billed_entity_name (text : str) : str :=
  match re_search billed_entity_re text with
  | Some g => strip g
  | None => py "Unknown"
  end.

(** The three tiers; only tried when the form type is ['471']. *)
Definition find_establishing_form470_number (form_type text : str) : option str :=
  if str_eqb form_type (py "471") then
    match re_search establishing_re text with
    | Some g => Some g
    | None =>
        match re_search establishing_loose_re text with
        | Some g => Some g
        | None => re_search fifteen_digits_re text
        end
    end
  else None.

(** The body of [extract_form_info] once the text of the pages is known. *)
Definition form_info_of_text (text : str) : gmap string str :=
  let form_type := classify_form_type text in
  match find_application_number text with
  | None => ∅
  | Some application_number =>
      let billed_entity_name := find_billed_entity_name text in
      let establishing_form470_number :=
        find_establishing_form470_number form_type text in
      let form_info : gmap string str :=
        <["billed_entity_name" := billed_entity_name]>
          (<["form_type" := form_type]>
             (<["application_number" := application_number]> ∅)) in
      if truthy establishing_form470_number
      then <["establishing_form470_number" :=
               default [] establishing_form470_number]> form_info
      else form_info
  end.

Definition nl : str := [newline].


(** ** Closed forms of the label patterns *)

(** What is left of [s] after the label, in any letter case. *)
Fixpoint after_label (l s : str) : option str :=
  match l, s with
  | [], _ => Some s
  | c :: l', x :: s' => if ci_char c x then after_label l' s' else None
  | _ :: _, [] => None
  end.

(** [label[:\s]*(\d+)] anchored: a closed form. *)
Definition label_digits (label s : str) : option str :=
  match after_label label s with
  | Some rest =>
      match drop_while colon_or_space rest with
      | c :: r => if is_digit c then Some (take_while is_digit (c :: r)) else None
      | [] => None
      end
  | None => None
  end.

(** ** Vocabulary of the statements about the extractor *)

(** [sub] occurs in [s]. *)
Definition substring (sub s : str) : Prop :=
  ∃ pre post, s = pre ++ sub ++ post.

Definition all_of (p : ascii -> bool) (s : str) : Prop := forallb p s = true.

(** The next character, if any, is not of class [p]. *)
Definition stops (p : ascii -> bool) (s : str) : Prop :=
  match s with
  | c :: _ => p c = false
  | [] => True
  end.

(** [suf] begins with the label in any letter case, then colons and white
    space, then the digit run [g], which is not empty and not followed by a
    digit. *)
Definition labelled_number (label suf g : str) : Prop :=
  ∃ L sep post,
    suf = L ++ sep ++ g ++ post
    ∧ lower L = lower label
    ∧ all_of colon_or_space sep
    ∧ g ≠ [] ∧ all_of is_digit g ∧ stops is_digit post.

(** [suf] begins with the [n] digits [g]. *)
Definition digit_window (n : nat) (suf g : str) : Prop :=
  ∃ post, suf = g ++ post ∧ length g = n ∧ all_of is_digit g.

(** [P suf g] holds of a suffix of the text, and of no suffix that starts
    further left. *)
Definition first_occurrence (P : str -> str -> Prop) (text g : str) : Prop :=
  ∃ pre suf,
    text = pre ++ suf ∧ P suf g
    ∧ ∀ pre' suf' g', text = pre' ++ suf' → P suf' g' → length pre ≤ length pre'.





(** ** The outside world *)

(** A Python call either returns or raises; [e] is [str(e)]. *)
Inductive outcome (A : Type) : Type :=
| Returned (a : A)
| Raised (e : str).
Arguments Returned {A} a.
Arguments Raised {A} e.

(** An attachment descriptor: [name] and [download_url]. *)
Record attachment := {
  att_name : str;
  att_download_url : option str
}.

(** A task as the Asana client returns it; [task_sections] lists the
    section names of its memberships. *)
Record task := {
  task_gid : str;
  task_name : str;
  task_notes : str;
  task_attachments : list attachment;
  task_sections : list str
}.

Record section := {
  sec_gid : str;
  sec_name : str
}.

(** A [requests] response; [json] is what [response.json()] does. *)
Record response := {
  status_code : nat;
  content : str;
  json : outcome (list (gmap string str))
}.

(** The argument of [client.tasks.create]. *)
Record subtask_data := {
  sub_name : str;
  sub_notes : str;
  sub_parent : str;
  sub_workspace : str
}.

(** The calls a run issues, in the order of the trace. *)
Inductive call : Type :=
| Tasks_find_by_project
| Tasks_find_by_id (task_id : str)
| Sections_find_by_project
| Sections_add_task (section_gid task_id : str)
| Tasks_add_comment (task_id text : str)
| Tasks_update_completed (task_id : str)
| Projects_find_by_id
| Tasks_create (data : subtask_data)
| Requests_get (url : str) (where_ : option str)
| File_write (path data : str)
| Pdf_open (path : str).

(** The collaborators.  [temp_download_dir] is [TEMP_DOWNLOAD_DIR];
    [projects_find_by_id] answers with the gid of the project's workspace;
    [write_file] stands for [os.makedirs] followed by [open] and [write];
    [pdf_pages] for [pdfplumber.open] and [extract_text] of every page. *)
Class Services (W : Type) := {
  temp_download_dir : str;
  tasks_find_by_project : W -> outcome (list task) * W;
  tasks_find_by_id : str -> W -> outcome task * W;
  sections_find_by_project : W -> outcome (list section) * W;
  sections_add_task : str -> str -> W -> outcome unit * W;
  tasks_add_comment : str -> str -> W -> outcome unit * W;
  tasks_update_completed : str -> W -> outcome unit * W;
  projects_find_by_id : W -> outcome (option str) * W;
  tasks_create : subtask_data -> W -> outcome str * W;
  requests_get : str -> option str -> W -> outcome response * W;
  write_file : str -> str -> W -> outcome unit * W;
  pdf_pages : str -> W -> outcome (list (option str)) * W
}.

(** ** Computations *)

Record state (W : Type) := {
  world : W;
  calls : list call
}.
Arguments world {W} s.
Arguments calls {W} s.

Definition M (W A : Type) : Type := state W -> outcome A * state W.

Definition ret {W A} (a : A) : M W A := fun st => (Returned a, st).

Definition bind {W A B} (m : M W A) (k : A -> M W B) : M W B :=
  fun st =>
    match m st with
    | (Returned a, st') => k a st'
    | (Raised e, st') => (Raised e, st')
    end.

Notation "x <- m ;; k" := (bind m (fun x => k))
  (at level 100, m at next level, right associativity).
Notation "m ;;; k" := (bind m (fun _ => k))
  (at level 100, right associativity).

(** [try: m  except Exception as e: handler e] *)
Definition try_except {W A} (m : M W A) (handler : str -> M W A) : M W A :=
  fun st =>
    match m st with
    | (Returned a, st') => (Returned a, st')
    | (Raised e, st') => handler e st'
    end.

(** A value that was computed outside, or the exception it raised. *)
Definition lift_outcome {W A} (o : outcome A) : M W A := fun st => (o, st).

(** One call of a collaborator, recorded in the trace. *)
Definition perform {W A} (c : call) (op : W -> outcome A * W) : M W A :=
  fun st =>
    let (r, w) := op (world st) in
    (r, {| world := w; calls := calls st ++ [c] |}).

(** [for x in l: body x] *)
Fixpoint for_each {W A} (l : list A) (body : A -> M W unit) : M W unit :=
  match l with
  | [] => ret tt
  | x :: l' => body x ;;; for_each l' body
  end.

(** Runs the attempts in order up to the first that yields a value. *)
Fixpoint first_success {W A} (attempts : list (M W (option A))) : M W (option A) :=
  match attempts with
  | [] => ret None
  | m :: rest =>
      r <- m ;;
      match r with
      | Some a => ret (Some a)
      | None => first_success rest
      end
  end.

(** ** Small helpers of the tools *)

(** [os.path.join(a, b)] *)
Definition path_join (a b : str) : str :=
  if startswith (py "/") b then b
  else if nonempty a && negb (endswith (py "/") a) then a ++ py "/" ++ b
  else a ++ b.

(** [s.split('/')[-1]] *)
Definition last_segment (s : str) : str :=
  rev (take_while (fun c => negb (bool_decide (c = "/"%char))) (rev s)).

(** An optional value inside an f-string. *)
Definition fmt (o : option str) : str := default (py "None") o.

(** [http[s]?://[^\s]+\.pdf], IGNORECASE; the group is the whole match. *)
Definition pdf_url_re : regex :=
  RGroup
    (lit_ci (py "http")
       (RCat (ROpt (ci_char "s"%char))
          (lit_ci (py "://")
             (RCat (rplus (fun c => negb (is_space c)))
                (lit_ci (py ".pdf") REps))))).

(** [name.lower().endswith('.pdf')] on a name that is not empty. *)
Definition is_pdf_name (name : str) : bool :=
  nonempty name && endswith (py ".pdf") (lower name).

(** The section tests of the three moves and of the backlog. *)
Definition is_processing_section (s : section) : bool :=
  contains (py "qa") (lower (sec_name s))
  && contains (py "processing") (lower (sec_name s)).

Definition is_manual_followup_section (s : section) : bool :=
  contains (py "qa") (lower (sec_name s))
  && contains (py "manual follow-up") (lower (sec_name s)).

Definition is_issues_section (s : section) : bool :=
  contains (py "qa") (lower (sec_name s))
  && contains (py "issues") (lower (sec_name s)).

(** The inner loop of [get_qa_tasks]: some membership of the task is in a
    section whose lowered name equals ['qa']. *)
Definition in_qa_section (t : task) : bool :=
  existsb (fun name => str_eqb (lower name) (py "qa")) (task_sections t).

(** The comments the tools post. *)
Definition processing_comment : str :=
  py "🔄 Task moved to Processing (simulated)" ++ nl ++ nl
  ++ py "This task is now being processed by the AI agent.".

Definition manual_followup_comment (reason : str) : str :=
  py "📋 Task moved to Manual Follow-up Required" ++ nl ++ nl
  ++ py "Reason: " ++ reason ++ nl ++ nl
  ++ py "This task requires manual review and processing.".

Definition issues_comment (issue_reason : str) : str :=
  py "⚠️ Task moved to Issues section" ++ nl ++ nl
  ++ py "Issue: " ++ issue_reason ++ nl ++ nl
  ++ py "This task has technical issues that need to be resolved.".

Definition complete_comment (form470_url : option str) : str :=
  py "✅ Task completed successfully!" ++ nl ++ nl
  ++ py "Form 470 found and linked:" ++ nl ++ fmt form470_url ++ nl ++ nl
  ++ py "This task was automatically processed by the AI agent.".

(** [form_info.get(key, 'Unknown')] *)
Definition get_or_unknown (form_info : gmap string str) (key : string) : str :=
  default (py "Unknown") (form_info !! key).

Definition subtask_name (form_info : gmap string str) : str :=
  py "Manual Review: Find Form 470 for "
  ++ get_or_unknown form_info "application_number".

(** The notes of the sub-task: a first paragraph, the three lines of the
    identifiers, and the instructions. *)
Definition subtask_notes_head : str :=
  py "This sub-task was created automatically because no Form 470 was found for Form 471."
  ++ nl ++ nl.

Definition subtask_notes_tail : str :=
  nl
  ++ py "Please manually search for the corresponding Form 470 and update this sub-task with the results."
  ++ nl ++ nl
  ++ py "Expected actions:" ++ nl
  ++ py "1. Search USAC database for Form 470" ++ nl
  ++ py "2. Verify the Form 470 matches the Form 471" ++ nl
  ++ py "3. Update this sub-task with findings" ++ nl
  ++ py "4. Mark parent task as complete if Form 470 is found".

Definition subtask_notes (form_info : gmap string str) : str :=
  subtask_notes_head
  ++ (py "Form 471 Application Number: "
      ++ get_or_unknown form_info "application_number" ++ nl)
  ++ (py "Form Type: " ++ get_or_unknown form_info "form_type" ++ nl)
  ++ (py "Billed Entity: " ++ get_or_unknown form_info "billed_entity_name" ++ nl)
  ++ subtask_notes_tail.

(** The registry. *)
Definition usac_url : str :=
  py "https://opendata.usac.org/resource/jt8s-3q52.json".

(** The [$where] parameter. *)
Definition where_clause (search_number : str) : str :=
  py "application_number='" ++ search_number ++ py "'".

(** The dict [search_form470] returns; a field is [None] when the key is
    absent.  [sr_search_number] is [Some None] when the key is there and
    holds Python's [None]. *)
Record search_result := {
  sr_found : bool;
  sr_form470_url : option str;
  sr_search_number : option (option str);
  sr_record : option (gmap string str);
  sr_error : option str
}.

(** [a or b] on the results of [dict.get]. *)
Definition or_else (a b : option str) : option str :=
  if truthy a then a else b.

(** The search number of [search_form470]. *)
Definition search_number_of (form_info : gmap string str) : option str :=
  if bool_decide (form_info !! "form_type" = Some (py "471"))
     && truthy (form_info !! "establishing_form470_number")
  then form_info !! "establishing_form470_number"
  else form_info !! "application_number".

(** ** The tools of [asana_form_agent.py] *)

Section Tools.
Context {W : Type} `{Services W}.

(** [get_qa_tasks] *)
Definition get_qa_tasks : M W (list task) :=
  try_except
    (tasks <- perform Tasks_find_by_project tasks_find_by_project ;;
     ret (List.filter in_qa_section tasks))
    (fun _ => ret []).

(** [move_task_to_processing] *)
Definition move_task_to_processing (task_id : str) : M W bool :=
  try_except
    (sections <- perform Sections_find_by_project sections_find_by_project ;;
     match List.find is_processing_section sections with
     | None => ret false
     | Some processing_section =>
         try_except
           (perform (Sections_add_task (sec_gid processing_section) task_id)
              (sections_add_task (sec_gid processing_section) task_id) ;;;
            ret true)
           (fun _ =>
              perform (Tasks_add_comment task_id processing_comment)
                (tasks_add_comment task_id processing_comment) ;;;
              ret true)
     end)
    (fun _ => ret false).

(** [move_task_to_manual_followup] *)
Definition move_task_to_manual_followup (task_id reason : str) : M W bool :=
  try_except
    (sections <- perform Sections_find_by_project sections_find_by_project ;;
     match List.find is_manual_followup_section sections with
     | None => ret false
     | Some manual_section =>
         try_except
           (perform (Sections_add_task (sec_gid manual_section) task_id)
              (sections_add_task (sec_gid manual_section) task_id))
           (fun _ => ret tt) ;;;
         perform (Tasks_add_comment task_id (manual_followup_comment reason))
           (tasks_add_comment task_id (manual_followup_comment reason)) ;;;
         ret true
     end)
    (fun _ => ret false).

(** [move_task_to_issues] *)
Definition move_task_to_issues (task_id issue_reason : str) : M W bool :=
  try_except
    (sections <- perform Sections_find_by_project sections_find_by_project ;;
     match List.find is_issues_section sections with
     | None => ret false
     | Some issues_section =>
         try_except
           (perform (Sections_add_task (sec_gid issues_section) task_id)
              (sections_add_task (sec_gid issues_section) task_id))
           (fun _ => ret tt) ;;;
         perform (Tasks_add_comment task_id (issues_comment issue_reason))
           (tasks_add_comment task_id (issues_comment issue_reason)) ;;;
         ret true
     end)
    (fun _ => ret false).

(** The body of the attachment loop of [download_pdf_from_task] for one
    attachment: [Some file_path] is the [return file_path], [None] lets
    the loop go on. *)
Definition fetch_attachment (task_id : str) (a : attachment)
  : M W (option str) :=
  if is_pdf_name (att_name a) then
    if truthy (att_download_url a) then
      let download_url := default [] (att_download_url a) in
      try_except
        (response <- perform (Requests_get download_url None)
                       (requests_get download_url None) ;;
         if status_code response =? 200 then
           let file_path :=
             path_join temp_download_dir
               (task_id ++ py "_" ++ att_name a) in
           perform (File_write file_path (content response))
             (write_file file_path (content response)) ;;;
           ret (Some file_path)
         else ret None)
        (fun _ => ret None)
    else ret None
  else ret None.

(** The part of [download_pdf_from_task] on the notes. *)
Definition fetch_notes_url (task_id notes : str) : M W (option str) :=
  if nonempty notes then
    match re_search pdf_url_re notes with
    | Some pdf_url =>
        try_except
          (response <- perform (Requests_get pdf_url None)
                         (requests_get pdf_url None) ;;
           if status_code response =? 200 then
             let filename := last_segment pdf_url in
             let file_path :=
               path_join temp_download_dir (task_id ++ py "_" ++ filename) in
             perform (File_write file_path (content response))
               (write_file file_path (content response)) ;;;
             ret (Some file_path)
           else ret None)
          (fun _ => ret None)
    | None => ret None
    end
  else ret None.

(** The loop over the attachments. *)
Fixpoint fetch_attachments (task_id : str) (attachments : list attachment)
  : M W (option str) :=
  match attachments with
  | [] => ret None
  | a :: rest =>
      r <- fetch_attachment task_id a ;;
      match r with
      | Some file_path => ret (Some file_path)
      | None => fetch_attachments task_id rest
      end
  end.

(** [download_pdf_from_task]; [None] is Python's [None]. *)
Definition download_pdf_from_task (task_id : str) : M W (option str) :=
  try_except
    (task <- perform (Tasks_find_by_id task_id) (tasks_find_by_id task_id) ;;
     r <- fetch_attachments task_id (task_attachments task) ;;
     match r with
     | Some file_path => ret (Some file_path)
     | None => fetch_notes_url task_id (task_notes task)
     end)
    (fun _ => ret None).

(** [extract_form_info] *)
Definition extract_form_info (pdf_path : str) : M W (gmap string str) :=
  try_except
    (pages <- perform (Pdf_open pdf_path) (pdf_pages pdf_path) ;;
     let text := concat (map (default []) pages) in
     ret (form_info_of_text text))
    (fun _ => ret ∅).

(** [search_form470] *)
Definition search_form470 (form_info : gmap string str) : M W search_result :=
  try_except
    (let search_number := search_number_of form_info in
     if negb (truthy search_number) then
       ret {| sr_found := false; sr_form470_url := None;
              sr_search_number := None; sr_record := None;
              sr_error := Some (py "No search number found") |}
     else
       let number := default [] search_number in
       response <- perform (Requests_get usac_url (Some (where_clause number)))
                     (requests_get usac_url (Some (where_clause number))) ;;
       if status_code response =? 200 then
         data <- lift_outcome (json response) ;;
         match data with
         | form470_record :: _ =>
             let form470_url := default [] (form470_record !! "form_pdf") in
             if nonempty form470_url then
               ret {| sr_found := true; sr_form470_url := Some form470_url;
                      sr_search_number := Some search_number;
                      sr_record := Some form470_record;
                      sr_error := None |}
             else
               ret {| sr_found := false; sr_form470_url := None;
                      sr_search_number := Some search_number;
                      sr_record := None;
                      sr_error := Some (py "No URL in record") |}
         | [] =>
             ret {| sr_found := false; sr_form470_url := None;
                    sr_search_number := Some search_number;
                    sr_record := None; sr_error := None |}
         end
       else
         ret {| sr_found := false; sr_form470_url := None;
                sr_search_number := Some search_number;
                sr_record := None;
                sr_error :=
                  Some (py "API error: " ++ py (pretty (status_code response))) |})
    (fun e =>
       ret {| sr_found := false; sr_form470_url := None;
              sr_search_number :=
                Some (or_else (form_info !! "establishing_form470_number")
                        (form_info !! "application_number"));
              sr_record := None; sr_error := Some e |}).

(** [mark_task_complete] *)
Definition mark_task_complete (task_id : str) (form470_url : option str)
  : M W bool :=
  try_except
    (perform (Tasks_update_completed task_id) (tasks_update_completed task_id) ;;;
     perform (Tasks_add_comment task_id (complete_comment form470_url))
       (tasks_add_comment task_id (complete_comment form470_url)) ;;;
     ret true)
    (fun _ => ret false).

(** [create_manual_review_subtask] *)
Definition create_manual_review_subtask (task_id : str)
    (form_info : gmap string str) : M W bool :=
  try_except
    (perform (Tasks_find_by_id task_id) (tasks_find_by_id task_id) ;;;
     workspace_gid <- perform Projects_find_by_id projects_find_by_id ;;
     if negb (truthy workspace_gid) then ret false
     else
       let subtask_data :=
         {| sub_name := subtask_name form_info;
            sub_notes := subtask_notes form_info;
            sub_parent := task_id;
            sub_workspace := default [] workspace_gid |} in
       perform (Tasks_create subtask_data) (tasks_create subtask_data) ;;;
       ret true)
    (fun _ => ret false).

(** ** The drivers *)

(** The reasons the drivers pass on. *)
Definition reason_not_found : str := py "Form 470 not found in USAC database".
Definition reason_not_471 : str := py "Not a Form 471 or extraction failed".
Definition reason_no_pdf : str := py "No PDF found or download failed".
Definition reason_extraction : str :=
  py "Failed to extract form information from PDF".

(** [if form_info:] *)
Definition dict_nonempty (d : gmap string str) : bool :=
  negb (bool_decide (d = ∅)).

(** [process_single_task] of [intelligent_qa_agent.py]. *)
Definition process_single_task (task_id task_name : str) : M W str :=
  move_task_to_processing task_id ;;;
  pdf_path <- download_pdf_from_task task_id ;;
  if truthy pdf_path then
    form_info <- extract_form_info (default [] pdf_path) ;;
    if dict_nonempty form_info
       && bool_decide (form_info !! "form_type" = Some (py "471")) then
      search_result <- search_form470 form_info ;;
      if sr_found search_result then
        mark_task_complete task_id (sr_form470_url search_result) ;;;
        ret (py "COMPLETED")
      else
        move_task_to_manual_followup task_id reason_not_found ;;;
        create_manual_review_subtask task_id form_info ;;;
        ret (py "MANUAL_FOLLOWUP")
    else
      move_task_to_issues task_id reason_not_471 ;;;
      ret (py "ISSUES")
  else
    move_task_to_issues task_id reason_no_pdf ;;;
    ret (py "ISSUES").

(** [process_qa_tasks_intelligently] *)
Definition process_qa_tasks_intelligently : M W unit :=
  qa_tasks <- get_qa_tasks ;;
  if bool_decide (qa_tasks = []) then ret tt
  else
    for_each qa_tasks
      (fun task => process_single_task (task_gid task) (task_name task) ;;; ret tt).

(** The body of the loop of [process_qa_tasks] of [run_qa_agent.py]. *)
Definition process_qa_task (task_id : str) : M W unit :=
  move_task_to_processing task_id ;;;
  pdf_path <- download_pdf_from_task task_id ;;
  if truthy pdf_path then
    form_info <- extract_form_info (default [] pdf_path) ;;
    if dict_nonempty form_info then
      search_result <- search_form470 form_info ;;
      if sr_found search_result then
        mark_task_complete task_id (sr_form470_url search_result) ;;; ret tt
      else
        move_task_to_manual_followup task_id reason_not_found ;;;
        create_manual_review_subtask task_id form_info ;;; ret tt
    else
      move_task_to_issues task_id reason_extraction ;;; ret tt
  else
    move_task_to_issues task_id reason_no_pdf ;;; ret tt.

(** [process_qa_tasks] *)
Definition process_qa_tasks : M W unit :=
  try_except
    (qa_tasks <- get_qa_tasks ;;
     if bool_decide (qa_tasks = []) then ret tt
     else for_each qa_tasks (fun task => process_qa_task (task_gid task)))
    (fun _ => ret tt).

End Tools.

(** ** Vocabulary of the statements about the locator *)

(** The attempts of [download_pdf_from_task] in the order it makes them:
    one per attachment, then the notes. *)
Definition locator_attempts {W} `{Services W} (task_id : str) (t : task)
  : list (M W (option str)) :=
  map (fetch_attachment task_id) (task_attachments t)
  ++ [fetch_notes_url task_id (task_notes t)].

(** Runs the attempts in order while they come back empty-handed; the
    state after the last one, if all of them did. *)
Fixpoint all_fail {W A} (attempts : list (M W (option A))) (st : state W)
  : option (state W) :=
  match attempts with
  | [] => Some st
  | m :: rest =>
      match m st with
      | (Returned None, st') => all_fail rest st'
      | _ => None
      end
  end.

(** No attachment of the list has a pdf name. *)
Definition no_pdf_name (attachments : list attachment) : Prop :=
  forallb (fun a => negb (is_pdf_name (att_name a))) attachments = true.

(** The fetch of [url] in world [w] does not deliver: it raises, or the
    status is not 200. *)
Definition fetch_fails {W} `{Services W} (url : str) (w : W) : Prop :=
  match requests_get url None w with
  | (Raised _, _) => True
  | (Returned response, _) => status_code response ≠ 200
  end.

(** ** An in-memory world

    A small implementation of the collaborators, to run the tools on
    concrete inputs: the project with its sections and tasks, what the
    network answers to each request, and the files written so far. *)

Record mem_world := {
  mw_tasks : list task;
  mw_sections : list section;
  mw_workspace : option str;
  mw_web : list (str * option str * outcome response);
  mw_files : list (str * str);
  mw_comments : list (str * str);
  mw_completed : list str;
  mw_subtasks : list subtask_data
}.

Definition mw_find_task (task_id : str) (w : mem_world) : option task :=
  List.find (fun t => str_eqb (task_gid t) task_id) (mw_tasks w).

Definition mw_find_section (gid : str) (w : mem_world) : option section :=
  List.find (fun s => str_eqb (sec_gid s) gid) (mw_sections w).

Definition mw_set_tasks (ts : list task) (w : mem_world) : mem_world :=
  {| mw_tasks := ts; mw_sections := mw_sections w;
     mw_workspace := mw_workspace w; mw_web := mw_web w;
     mw_files := mw_files w; mw_comments := mw_comments w;
     mw_completed := mw_completed w; mw_subtasks := mw_subtasks w |}.

Definition mw_set_files (fs : list (str * str)) (w : mem_world) : mem_world :=
  {| mw_tasks := mw_tasks w; mw_sections := mw_sections w;
     mw_workspace := mw_workspace w; mw_web := mw_web w;
     mw_files := fs; mw_comments := mw_comments w;
     mw_completed := mw_completed w; mw_subtasks := mw_subtasks w |}.

Definition mw_set_comments (cs : list (str * str)) (w : mem_world) : mem_world :=
  {| mw_tasks := mw_tasks w; mw_sections := mw_sections w;
     mw_workspace := mw_workspace w; mw_web := mw_web w;
     mw_files := mw_files w; mw_comments := cs;
     mw_completed := mw_completed w; mw_subtasks := mw_subtasks w |}.

Definition mw_set_completed (cs : list str) (w : mem_world) : mem_world :=
  {| mw_tasks := mw_tasks w; mw_sections := mw_sections w;
     mw_workspace := mw_workspace w; mw_web := mw_web w;
     mw_files := mw_files w; mw_comments := mw_comments w;
     mw_completed := cs; mw_subtasks := mw_subtasks w |}.

Definition mw_set_subtasks (ss : list subtask_data) (w : mem_world) : mem_world :=
  {| mw_tasks := mw_tasks w; mw_sections := mw_sections w;
     mw_workspace := mw_workspace w; mw_web := mw_web w;
     mw_files := mw_files w; mw_comments := mw_comments w;
     mw_completed := mw_completed w; mw_subtasks := ss |}.

Definition not_found {A} : outcome A := Raised (py "Not Found").

(** Moving a task puts it into the one section. *)
Definition mw_add_task (gid task_id : str) (w : mem_world)
  : outcome unit * mem_world :=
  match mw_find_section gid w, mw_find_task task_id w with
  | Some s, Some _ =>
      (Returned tt,
       mw_set_tasks
         (map (fun t =>
                 if str_eqb (task_gid t) task_id then
                   {| task_gid := task_gid t; task_name := task_name t;
                      task_notes := task_notes t;
                      task_attachments := task_attachments t;
                      task_sections := [sec_name s] |}
                 else t) (mw_tasks w)) w)
  | _, _ => (not_found, w)
  end.

Definition mw_requests_get (url : str) (where_ : option str) (w : mem_world)
  : outcome response * mem_world :=
  match List.find (fun e => bool_decide (e.1 = (url, where_))) (mw_web w) with
  | Some e => (e.2, w)
  | None => (Raised (py "Connection refused"), w)
  end.

(** A stored file is a one-page document whose text is its content. *)
Definition mw_pdf_pages (path : str) (w : mem_world)
  : outcome (list (option str)) * mem_world :=
  match List.find (fun f => str_eqb f.1 path) (mw_files w) with
  | Some f => (Returned [Some f.2], w)
  | None => (Raised (py "No such file"), w)
  end.

#[export] Instance mem_services : Services mem_world := {|
  temp_download_dir := py "/tmp/agno_pdfs";
  tasks_find_by_project := fun w => (Returned (mw_tasks w), w);
  tasks_find_by_id := fun task_id w =>
    match mw_find_task task_id w with
    | Some t => (Returned t, w)
    | None => (not_found, w)
    end;
  sections_find_by_project := fun w => (Returned (mw_sections w), w);
  sections_add_task := mw_add_task;
  tasks_add_comment := fun task_id text w =>
    match mw_find_task task_id w with
    | Some _ => (Returned tt, mw_set_comments (mw_comments w ++ [(task_id, text)]) w)
    | None => (not_found, w)
    end;
  tasks_update_completed := fun task_id w =>
    match mw_find_task task_id w with
    | Some _ => (Returned tt, mw_set_completed (mw_completed w ++ [task_id]) w)
    | None => (not_found, w)
    end;
  projects_find_by_id := fun w => (Returned (mw_workspace w), w);
  tasks_create := fun d w =>
    (Returned (sub_name d), mw_set_subtasks (mw_subtasks w ++ [d]) w);
  requests_get := mw_requests_get;
  write_file := fun path data w =>
    (Returned tt, mw_set_files ((path, data) :: mw_files w) w);
  pdf_pages := mw_pdf_pages
|}.

Definition start (w : mem_world) : state mem_world :=
  {| world := w; calls := [] |}.

(** The project of the examples: the sections of the board. *)
Definition board : list section :=
  [ {| sec_gid := py "10"; sec_name := py "QA" |};
    {| sec_gid := py "11"; sec_name := py "QA – Processing" |};
    {| sec_gid := py "12"; sec_name := py "QA – Manual Follow-up Required" |};
    {| sec_gid := py "13"; sec_name := py "QA - Issues" |} ].

Definition ok_response (body : str) : outcome response :=
  Returned {| status_code := 200; content := body; json := Raised (py "Expecting value") |}.

Definition status_response (n : nat) : outcome response :=
  Returned {| status_code := n; content := []; json := Raised (py "Expecting value") |}.

Definition registry_response (records : list (gmap string str)) : outcome response :=
  Returned {| status_code := 200; content := []; json := Returned records |}.

Definition mem_world_of (tasks : list task)
    (web : list (str * option str * outcome response)) : mem_world :=
  {| mw_tasks := tasks; mw_sections := board; mw_workspace := Some (py "900");
     mw_web := web; mw_files := []; mw_comments := [];
     mw_completed := []; mw_subtasks := [] |}.

(** ** Vocabulary of the statements about records *)


(** ** Vocabulary of the statements about the task store *)

(** The lowered name of the section contains "qa" and [word]. *)
Definition names_both (word : string) (s : section) : Prop :=
  substring (py "qa") (lower (sec_name s))
  ∧ substring (py word) (lower (sec_name s)).

(** [s] is the first element of [l] that satisfies [P]. *)
Definition first_such {A} (P : A -> Prop) (l : list A) (s : A) : Prop :=
  ∃ pre post, l = pre ++ s :: post ∧ P s ∧ Forall (fun x => ¬ P x) pre.

(** The calls of a move to the section [s] with the comment [text]. *)
Definition move_calls (s : section) (task_id text : str) : list call :=
  [Sections_find_by_project;
   Sections_add_task (sec_gid s) task_id;
   Tasks_add_comment task_id text].

(** The calls of [create_manual_review_subtask] when it gets as far as
    creating the sub-task [d]. *)
Definition subtask_calls (task_id : str) (d : subtask_data) : list call :=
  [Tasks_find_by_id task_id; Projects_find_by_id; Tasks_create d].

(** The number of sub-tasks created along a trace. *)
Definition created (cs : list call) : nat :=
  length (List.filter (fun c => match c with Tasks_create _ => true | _ => false end) cs).


(** The calls of the locator and of the extractor. *)
Definition reading_call (c : call) : Prop :=
  match c with
  | Tasks_find_by_id _ | Requests_get _ None | File_write _ _ | Pdf_open _ => True
  | _ => False
  end.

(** ** Scenarios *)

Definition doc_471 : str :=
  py "FCC Form 471" ++ nl ++ py "Application Number: 251043327" ++ nl
  ++ py "Billed Entity Name: Some School" ++ nl
  ++ py "Establishing FCC Form 470: 123456789012345".

Definition doc_470 : str :=
  py "FCC Form 470" ++ nl ++ py "Application Number: 230001234" ++ nl
  ++ py "Billed Entity Name: Some Library".


Definition form_url : str := py "http://files.example.org/forms/F.pdf".
Definition scan_url : str := py "http://files.example.org/att/scan.pdf".
Definition form470_pdf : str := py "http://publicdata.usac.org/470.pdf".

(** A task of the backlog with a pdf URL in its notes. *)
Definition task_with_url : task :=
  {| task_gid := py "1"; task_name := py "Test Form 471 with PDF URL";
     task_notes := py "Form URL: http://files.example.org/forms/F.pdf";
     task_attachments := []; task_sections := [py "QA"] |}.

(** The same with a pdf attachment in front. *)
Definition task_two_sources : task :=
  {| task_gid := py "1"; task_name := py "Test two sources";
     task_notes := py "Form URL: http://files.example.org/forms/F.pdf";
     task_attachments :=
       [ {| att_name := py "Scan.PDF"; att_download_url := Some scan_url |} ];
     task_sections := [py "QA"] |}.

Definition task_without_source : task :=
  {| task_gid := py "1"; task_name := py "Test No PDF Available";
     task_notes := py "This task has no PDF attachments or URLs.";
     task_attachments := []; task_sections := [py "QA"] |}.

Definition registry_query (number : string) : str * option str :=
  (usac_url, Some (where_clause (py number))).


(** The document is a Form 470; nothing else is reachable. *)
Definition world_470 : mem_world :=
  mem_world_of [task_with_url] [ (form_url, None, ok_response doc_470) ].



(** The document is a Form 471 and the registry has no record. *)
Definition world_471_none : mem_world :=
  mem_world_of [task_with_url]
    [ (form_url, None, ok_response doc_471);
      (registry_query "123456789012345", registry_response []) ].

(** The attachment cannot be fetched, the URL of the notes can. *)
Definition world_two_sources : mem_world :=
  mem_world_of [task_two_sources]
    [ (scan_url, None, status_response 404);
      (form_url, None, ok_response doc_471) ].

(** The only source cannot be fetched. *)
Definition world_broken_url : mem_world :=
  mem_world_of [task_with_url] [ (form_url, None, status_response 404) ].

Definition world_without_source : mem_world :=
  mem_world_of [task_without_source] [].

(** Tasks in sections whose names contain "qa" without being "qa". *)
Definition world_other_sections : mem_world :=
  mem_world_of
    [ {| task_gid := py "1"; task_name := py "in the backlog";
         task_notes := []; task_attachments := []; task_sections := [py "Qa"] |};
      {| task_gid := py "2"; task_name := py "in a QA section of another name";
         task_notes := []; task_attachments := [];
         task_sections := [py "QA Backlog"] |};
      {| task_gid := py "3"; task_name := py "being processed";
         task_notes := []; task_attachments := [];
         task_sections := [py "QA – Processing"] |} ]
    [].

Definition saved_path : str := py "/tmp/agno_pdfs/1_F.pdf".


(** ** Vocabulary of further statements *)

(** The words of a pattern, without regard to groups. *)
Fixpoint matches (r : regex) (w : str) : Prop :=
  match r with
  | RChar p => ∃ c, w = [c] ∧ p c = true
  | RStar p => all_of p w
  | ROpt p => w = [] ∨ ∃ c, w = [c] ∧ p c = true
  | RCat r1 r2 => ∃ w1 w2, w = w1 ++ w2 ∧ matches r1 w1 ∧ matches r2 w2
  | REps => w = []
  | RGroup r1 => matches r1 w
  end.



(** Neither end of [s] is white space. *)
Definition trimmed (s : str) : Prop :=
  stops is_space s ∧ stops is_space (rev s).




(** The character is no white space; the character is no slash. *)
Definition no_space (c : ascii) : bool := negb (is_space c).

(** What a fetch that delivered [p] did between [st] and [st']: the request
    of [url], answered with status 200, then the write of the body at [p],
    the path made of the directory, the task and [name]. *)
Definition delivered {W} `{Services W} (task_id name url p : str)
    (st st' : state W) : Prop :=
  ∃ response w1,
    url ≠ []
    ∧ requests_get url None (world st) = (Returned response, w1)
    ∧ status_code response = 200
    ∧ p = path_join temp_download_dir (task_id ++ py "_" ++ name)
    ∧ write_file p (content response) w1 = (Returned tt, world st')
    ∧ calls st'
      = calls st ++ [Requests_get url None; File_write p (content response)].

(** The call returned. *)
Definition returned {A} (o : outcome A) : bool :=
  match o with Returned _ => true | Raised _ => false end.

(** The section of the board for the issues. *)
Definition issues_section : section :=
  {| sec_gid := py "13"; sec_name := py "QA - Issues" |}.

Definition processing_section : section :=
  {| sec_gid := py "11"; sec_name := py "QA – Processing" |}.

(** ** Vocabulary of the statements about runs *)

(** A call that neither marks a task completed, nor creates a task, nor
    asks the registry. *)
Definition quiet (c : call) : Prop :=
  match c with
  | Tasks_update_completed _ | Tasks_create _ | Requests_get _ (Some _) => False
  | _ => True
  end.

(** A call that leaves the task store as it is. *)
Definition read_only (c : call) : Prop :=
  match c with
  | Sections_add_task _ _ | Tasks_add_comment _ _
  | Tasks_update_completed _ | Tasks_create _ => False
  | _ => True
  end.

(** The request to the registry for the key. *)
Definition registry_request (key : str) : call :=
  Requests_get usac_url (Some (where_clause key)).

(** The calls of a run that ends in Issues: nothing is completed or
    created and the registry is not asked. *)
Definition issues_trace (cs : list call) : Prop := Forall quiet cs.

(** The calls of a run that completes the task: one request to the
    registry and, right after it, the completion of the task. *)
Definition completed_trace (task_id : str) (cs : list call) : Prop :=
  ∃ pre key rest,
    cs = pre ++ registry_request key :: Tasks_update_completed task_id :: rest
    ∧ Forall quiet pre ∧ Forall quiet rest.

(** The calls of a run that asks for a manual follow-up: one request to the
    registry, no completion, and at most one sub-task, of the task. *)
Definition follow_up_trace (task_id : str) (cs : list call) : Prop :=
  ∃ pre key post,
    cs = pre ++ registry_request key :: post
    ∧ Forall quiet pre
    ∧ Forall (fun c => quiet c ∨ ∃ d, c = Tasks_create d ∧ sub_parent d = task_id)
        post
    ∧ created post ≤ 1.

(** The calls of the run of one task: the task is read, and the run has one
    of the three shapes. *)
Definition task_trace (task_id : str) (cs : list call) : Prop :=
  In (Tasks_find_by_id task_id) cs
  ∧ (issues_trace cs ∨ completed_trace task_id cs ∨ follow_up_trace task_id cs).

(** ** The manual check of the pipeline *)

Section Checks.
Context {W : Type} `{Services W}.

(** The body of the loop of [test_qa_processing] of
    [test_qa_processing.py]: the steps that read, and a report of what the
    agent would do. *)
Definition test_qa_task (task_id : str) : M W unit :=
  pdf_path <- download_pdf_from_task task_id ;;
  if truthy pdf_path then
    form_info <- extract_form_info (default [] pdf_path) ;;
    if dict_nonempty form_info then
      search_result <- search_form470 form_info ;;
      if sr_found search_result then ret tt else ret tt
    else ret tt
  else ret tt.

(** [test_qa_processing] *)
Definition test_qa_processing : M W unit :=
  try_except
    (qa_tasks <- get_qa_tasks ;;
     if bool_decide (qa_tasks = []) then ret tt
     else for_each qa_tasks (fun task => test_qa_task (task_gid task)))
    (fun _ => ret tt).

End Checks.
(** * Properties *)

(** ** Strings *)

Lemma startswith_spec p s :
  startswith p s = true ↔ ∃ post, s = p ++ post.
Proof.
  revert s. induction p as [|a p IH]; intros s; simpl.
  - split; eauto.
  - destruct s as [|b s]; simpl.
    + split; [discriminate | intros [post H]; discriminate].
    + rewrite andb_true_iff, bool_decide_eq_true, IH. split.
      * intros [-> [post ->]]. eauto.
      * intros [post H]. injection H as -> ->. eauto.
Qed.

Lemma contains_spec sub s : contains sub s = true ↔ substring sub s.
Proof.
  unfold substring. induction s as [|c s IH].
  - simpl. rewrite orb_false_r, startswith_spec. split.
    + intros [post H]. exists [], post. exact H.
    + intros (pre & post & H). destruct pre; simpl in H; [eauto | discriminate].
  - cbn [contains]. rewrite orb_true_iff, startswith_spec, IH. split.
    + intros [[post H] | (pre & post & H)].
      * exists [], post. exact H.
      * exists (c :: pre), post. simpl. by rewrite H.
    + intros (pre & post & H). destruct pre as [|a pre]; simpl in H.
      * left. eauto.
      * right. injection H as -> ->. eauto.
Qed.

Lemma contains_false sub s : contains sub s = false ↔ ¬ substring sub s.
Proof.
  rewrite <- contains_spec. destruct (contains sub s); split; try done.
  all: try (intros H; by destruct H).
Qed.

Lemma take_drop_while p s : take_while p s ++ drop_while p s = s.
Proof.
  induction s as [|c s IH]; simpl; [done|].
  destruct (p c); simpl; [by rewrite IH | done].
Qed.

Lemma take_while_all p s : all_of p (take_while p s).
Proof.
  unfold all_of. induction s as [|c s IH]; simpl; [done|].
  destruct (p c) eqn:E; simpl; [by rewrite E | done].
Qed.

Lemma drop_while_stops p s : stops p (drop_while p s).
Proof.
  induction s as [|c s IH]; simpl; [done|].
  destruct (p c) eqn:E; simpl; done.
Qed.

Lemma take_while_app p g post :
  all_of p g → stops p post → take_while p (g ++ post) = g.
Proof.
  unfold all_of. induction g as [|c g IH]; simpl; intros Hg Hp.
  - destruct post as [|c post]; simpl in *; [done | by rewrite Hp].
  - apply andb_true_iff in Hg as [-> Hg]. by rewrite IH.
Qed.

Lemma drop_while_app p g post :
  all_of p g → stops p post → drop_while p (g ++ post) = post.
Proof.
  unfold all_of. induction g as [|c g IH]; simpl; intros Hg Hp.
  - destruct post as [|c post]; simpl in *; [done | by rewrite Hp].
  - apply andb_true_iff in Hg as [-> Hg]. by rewrite IH.
Qed.

Lemma take_length_take_while p s :
  take (length s - length (drop_while p s)) s = take_while p s.
Proof.
  rewrite <- (take_drop_while p s) at 1 3.
  rewrite length_app, Nat.add_sub.
  by rewrite take_app_length.
Qed.

(** No character is both a digit and a separator of the label patterns. *)
Lemma digit_not_separator c : is_digit c = true → colon_or_space c = false.
Proof. destruct c as [[] [] [] [] [] [] [] []]; vm_compute; congruence. Qed.

Lemma separator_not_digit c : colon_or_space c = true → is_digit c = false.
Proof.
  intros H. destruct (is_digit c) eqn:E; [|done].
  apply digit_not_separator in E. congruence.
Qed.

(** ** The matcher *)

Lemma rmatch_lit_ci l r k s g :
  rmatch (lit_ci l r) k s g
  = match after_label l s with
    | Some rest => rmatch r k rest g
    | None => None
    end.
Proof.
  revert s. induction l as [|c l IH]; intros s; simpl; [done|].
  destruct s as [|x s]; [done|]. destruct (ci_char c x); [apply IH | done].
Qed.

Lemma after_label_spec l s rest :
  after_label l s = Some rest ↔ ∃ L, s = L ++ rest ∧ lower L = lower l.
Proof.
  revert s. induction l as [|c l IH]; intros s; simpl.
  - split.
    + intros [= ->]. by exists [].
    + intros (L & -> & HL). destruct L; [done | discriminate].
  - destruct s as [|x s].
    + split; [done|]. intros (L & H & HL).
      destruct L; simpl in *; discriminate.
    + unfold ci_char. case_bool_decide as Hx.
      * rewrite IH. split.
        -- intros (L & -> & HL). exists (x :: L). simpl. by rewrite Hx, HL.
        -- intros (L & H & HL). destruct L as [|y L]; [discriminate|].
           simpl in *. injection H as -> ->. injection HL as _ HL. eauto.
      * split; [done|]. intros (L & H & HL).
        destruct L as [|y L]; [discriminate|]. simpl in *.
        injection H as -> ->. injection HL as Hy _. done.
Qed.

Lemma rmatch_cat r1 r2 k s g :
  rmatch (RCat r1 r2) k s g = rmatch r1 (rmatch r2 k) s g.
Proof. reflexivity. Qed.

Lemma rmatch_star p k s g : rmatch (RStar p) k s g = rstar p k s g.
Proof. reflexivity. Qed.

(** A greedy repetition whose continuation never fails keeps all it took. *)
Lemma rstar_greedy p (k : cont) s g :
  (∀ s' g', is_Some (k s' g')) → rstar p k s g = k (drop_while p s) g.
Proof.
  intros Hk. induction s as [|c s IH]; simpl; [done|].
  destruct (p c); [|done]. rewrite IH.
  destruct (Hk (drop_while p s) g) as [x ->]. done.
Qed.

(** A greedy repetition gives nothing back when the continuation refuses
    every character of the class. *)
Lemma rstar_skip p (k : cont) s g :
  (∀ c s' g', p c = true → k (c :: s') g' = None) →
  rstar p k s g = k (drop_while p s) g.
Proof.
  intros Hk. induction s as [|c s IH]; simpl; [done|].
  destruct (p c) eqn:E; [|done]. rewrite IH.
  destruct (k (drop_while p s) g) eqn:E'; [done|]. by apply Hk.
Qed.

(** [(p+)] at the end of a pattern captures the longest run. *)
Lemma rmatch_group_plus p s g :
  rmatch (RGroup (rplus p)) (fun _ g' => Some g') s g
  = match s with
    | c :: _ => if p c then Some (take_while p s) else None
    | [] => None
    end.
Proof.
  destruct s as [|c s]; [done|]. cbn -[take Nat.sub length].
  destruct (p c) eqn:E; [|done].
  rewrite rstar_greedy by eauto.
  pose proof (take_length_take_while p (c :: s)) as H.
  cbn [drop_while take_while] in H. rewrite E in H. by rewrite H.
Qed.

Lemma re_match_label_digits label s :
  re_match (lit_ci label (RCat (RStar colon_or_space) (RGroup (rplus is_digit)))) s
  = label_digits label s.
Proof.
  unfold re_match, label_digits. rewrite rmatch_lit_ci.
  destruct (after_label label s) as [rest|]; [|done].
  rewrite rmatch_cat, rmatch_star, rstar_skip.
  - rewrite rmatch_group_plus. by destruct (drop_while colon_or_space rest).
  - intros c s' g' Hc. rewrite rmatch_group_plus.
    by rewrite (separator_not_digit c Hc).
Qed.

Lemma label_digits_spec label s g :
  label_digits label s = Some g ↔ labelled_number label s g.
Proof.
  unfold label_digits, labelled_number. split.
  - destruct (after_label label s) as [rest|] eqn:E; [|done].
    apply after_label_spec in E as (L & -> & HL).
    pose proof (take_drop_while colon_or_space rest) as Hsep.
    pose proof (drop_while_stops colon_or_space rest) as Hstop.
    destruct (drop_while colon_or_space rest) as [|c r] eqn:E; [done|].
    destruct (is_digit c) eqn:Hc; [|done]. intros Hg.
    assert (g = take_while is_digit (c :: r)) as -> by congruence.
    exists L, (take_while colon_or_space rest), (drop_while is_digit (c :: r)).
    rewrite take_drop_while, Hsep. repeat split; try done.
    + apply take_while_all.
    + simpl. by rewrite Hc.
    + apply take_while_all.
    + apply drop_while_stops.
  - intros (L & sep & post & -> & HL & Hsep & Hg & Hd & Hp).
    assert (after_label label (L ++ sep ++ g ++ post) = Some (sep ++ g ++ post))
      as -> by (apply after_label_spec; eauto).
    destruct g as [|c g]; [done|].
    assert (is_digit c = true) as Hc
      by (unfold all_of in Hd; simpl in Hd; by apply andb_true_iff in Hd as [? _]).
    rewrite drop_while_app; [|done|simpl; by apply digit_not_separator].
    simpl app. cbv iota. rewrite Hc.
    change (c :: g ++ post) with ((c :: g) ++ post).
    by rewrite take_while_app.
Qed.

(** [(\d{n})] anchored. *)
Lemma rmatch_rrep n p (k : cont) s g :
  rmatch (rrep n p) k s g
  = if (n <=? length s) && forallb p (take n s) then k (drop n s) g else None.
Proof.
  revert s. induction n as [|n IH]; intros s; simpl.
  - by rewrite drop_0.
  - destruct s as [|c s]; [done|]. simpl.
    destruct (p c); simpl; [apply IH | by rewrite andb_false_r].
Qed.

Lemma re_match_digits_spec n s g :
  re_match (RGroup (rrep n is_digit)) s = Some g ↔ digit_window n s g.
Proof.
  unfold re_match, digit_window. cbn [rmatch]. rewrite rmatch_rrep.
  destruct (n <=? length s) eqn:Hn; simpl.
  - apply Nat.leb_le in Hn. destruct (forallb is_digit (take n s)) eqn:Hd.
    + rewrite length_drop. replace (length s - (length s - n)) with n by lia.
      split.
      * intros [= <-]. exists (drop n s).
        rewrite take_drop, length_take. split; [done|]. split; [lia | done].
      * intros (post & -> & Hl & Hg). f_equal. subst n.
        by rewrite take_app_length.
    + split; [done|]. intros (post & -> & Hl & Hg). subst n.
      rewrite take_app_length in Hd. unfold all_of in Hg. congruence.
  - apply Nat.leb_gt in Hn. split; [done|].
    intros (post & -> & Hl & Hg). rewrite length_app in Hn. lia.
Qed.

(** [re.search] returns the match at the leftmost position that has one. *)
Lemma re_search_first r (P : str -> str -> Prop) text g :
  (∀ suf x, re_match r suf = Some x ↔ P suf x) →
  re_search r text = Some g ↔ first_occurrence P text g.
Proof.
  intros HP. unfold first_occurrence. induction text as [|c text IH].
  - simpl. destruct (re_match r []) as [x|] eqn:E.
    + split.
      * intros [= ->]. exists [], []. repeat split; [by apply HP|].
        intros; simpl; lia.
      * intros (pre & suf & H & HPs & _).
        symmetry in H. apply app_eq_nil in H as [-> ->].
        apply HP in HPs. congruence.
    + split; [done|]. intros (pre & suf & H & HPs & _).
      symmetry in H. apply app_eq_nil in H as [-> ->].
      apply HP in HPs. congruence.
  - cbn [re_search]. destruct (re_match r (c :: text)) as [x|] eqn:E.
    + split.
      * intros [= ->]. exists [], (c :: text). repeat split; [by apply HP|].
        intros; simpl; lia.
      * intros (pre & suf & H & HPs & Hmin).
        apply HP in E. specialize (Hmin [] (c :: text) x eq_refl E).
        destruct pre; [|simpl in Hmin; lia]. simpl in H. subst suf.
        apply HP in HPs, E. congruence.
    + rewrite IH. split.
      * intros (pre & suf & -> & HPs & Hmin). exists (c :: pre), suf.
        repeat split; [done|]. intros pre' suf' g' H HP'.
        destruct pre' as [|c' pre']; simpl in H.
        -- subst suf'. apply HP in HP'. congruence.
        -- injection H as -> H. simpl. specialize (Hmin _ _ _ H HP'). lia.
      * intros (pre & suf & H & HPs & Hmin).
        destruct pre as [|c' pre]; simpl in H.
        -- subst suf. apply HP in HPs. congruence.
        -- injection H as -> ->. exists pre, suf. repeat split; [done|].
           intros pre' suf' g' H HP'.
           assert (c' :: pre ++ suf = (c' :: pre') ++ suf') as H'
             by (simpl; by rewrite H).
           specialize (Hmin _ _ _ H' HP'). simpl in Hmin. lia.
Qed.


(** ** The field extractor *)

Lemma application_number_re_spec suf g :
  re_match application_number_re suf = Some g
  ↔ labelled_number (py "Application Number") suf g.
Proof.
  unfold application_number_re.
  by rewrite re_match_label_digits, label_digits_spec.
Qed.

Lemma nine_digits_re_spec suf g :
  re_match nine_digits_re suf = Some g ↔ digit_window 9 suf g.
Proof. apply re_match_digits_spec. Qed.

Lemma form_info_fields text a :
  find_application_number text = Some a →
  form_info_of_text text !! "application_number" = Some a
  ∧ form_info_of_text text !! "form_type" = Some (classify_form_type text)
  ∧ form_info_of_text text !! "billed_entity_name"
    = Some (find_billed_entity_name text).
Proof.
  intros Ha. unfold form_info_of_text. rewrite Ha.
  destruct (truthy _); by simplify_map_eq.
Qed.

Lemma form_info_empty text :
  form_info_of_text text = ∅ ↔ find_application_number text = None.
Proof.
  split.
  - destruct (find_application_number text) as [a|] eqn:Ha; [|done].
    intros He. apply form_info_fields in Ha as [Ha _].
    rewrite He in Ha. by rewrite lookup_empty in Ha.
  - intros Ha. unfold form_info_of_text. by rewrite Ha.
Qed.





(** ** Running computations *)

Ltac unfold_monad :=
  unfold bind, try_except, perform, ret, lift_outcome in *; cbn beta iota in *.

(** Closes a goal of the form "the tool returns, and its calls are ...". *)
Ltac shape :=
  eexists _, _, _; split; [done|];
  split; [cbn [calls]; rewrite <- ?app_assoc; reflexivity|]; simpl.

(** ** The registry matcher *)

Section Matcher.
Context {W : Type} `{Services W}.

Lemma truthy_Some (o : option str) :
  truthy o = true ↔ ∃ s, o = Some s ∧ s ≠ [].
Proof.
  destruct o as [[|c s]|]; simpl; split; try done.
  - intros (s & [= <-] & Hs). done.
  - intros _. eauto.
  - intros (s & [=] & _).
Qed.

Lemma search_number_truthy form_info :
  truthy (search_number_of form_info) = true →
  truthy (or_else (form_info !! "establishing_form470_number")
            (form_info !! "application_number")) = true.
Proof.
  unfold search_number_of, or_else.
  destruct (truthy (form_info !! "establishing_form470_number")) eqn:E;
    [done|]. by rewrite andb_false_r.
Qed.

Lemma search_form470_no_key form_info (st : state W) :
  truthy (search_number_of form_info) = false →
  search_form470 form_info st
  = (Returned {| sr_found := false; sr_form470_url := None;
                 sr_search_number := None; sr_record := None;
                 sr_error := Some (py "No search number found") |}, st).
Proof.
  intros Hkey. unfold search_form470. rewrite Hkey. by unfold_monad.
Qed.

Lemma search_number_cases form_info :
  let est := form_info !! "establishing_form470_number" in
  (form_info !! "form_type" = Some (py "471") ∧ truthy est = true
   ∧ search_number_of form_info = est)
  ∨ (¬ (form_info !! "form_type" = Some (py "471") ∧ truthy est = true)
     ∧ search_number_of form_info = form_info !! "application_number").
Proof.
  cbv zeta. unfold search_number_of. case_bool_decide as Ht; simpl.
  - destruct (truthy _) eqn:E; [left | right]; intuition congruence.
  - right. intuition congruence.
Qed.

(** C1. The search key is the establishing Form 470 number when the form
    type is 471 and that number is set, and the application number
    otherwise.  With neither number the search answers found=false with
    the error "No search number found" and the state is unchanged: no
    call was issued.  With a key, exactly one request is issued, for the
    records whose application number equals the key, and the answer
    carries the key (on a record whose establishing number is only set
    for a 471, as extraction produces them, also when the request
    raised). *)
Theorem registry_search_key (form_info : gmap string str) (st : state W) :
  let est := form_info !! "establishing_form470_number" in
  let app := form_info !! "application_number" in
  let is471 := form_info !! "form_type" = Some (py "471") in
  (is471 → truthy est = true → search_number_of form_info = est)
  ∧ (¬ (is471 ∧ truthy est = true) → search_number_of form_info = app)
  ∧ (truthy est = false → truthy app = false →
     search_form470 form_info st
     = (Returned {| sr_found := false; sr_form470_url := None;
                    sr_search_number := None; sr_record := None;
                    sr_error := Some (py "No search number found") |}, st))
  ∧ (∀ key, search_number_of form_info = Some key → key ≠ [] →
     ∃ r st',
       search_form470 form_info st = (Returned r, st')
       ∧ calls st' = calls st ++ [Requests_get usac_url (Some (where_clause key))]
       ∧ ((truthy est = true → is471) → sr_search_number r = Some (Some key))).
Proof.
  cbv zeta. repeat split.
  - intros Ht He. unfold search_number_of. rewrite He.
    by rewrite bool_decide_eq_true_2.
  - intros Hn. destruct (search_number_cases form_info) as [(?&?&?)|[_ ?]];
      [exfalso; by apply Hn | done].
  - intros He Ha. apply search_form470_no_key.
    unfold search_number_of. rewrite He, andb_false_r. exact Ha.
  - intros key Hkey Hne.
    assert (truthy (Some key) = true) as Htk by (by destruct key).
    assert ((truthy (form_info !! "establishing_form470_number") = true →
             form_info !! "form_type" = Some (py "471")) →
            or_else (form_info !! "establishing_form470_number")
              (form_info !! "application_number") = Some key) as Hor.
    { intros Himp. unfold or_else.
      destruct (search_number_cases form_info) as [(_&He&Hs)|[Hn Hs]].
      - rewrite He. congruence.
      - destruct (truthy (form_info !! "establishing_form470_number")) eqn:E;
          [exfalso; apply Hn; auto | congruence]. }
    unfold search_form470. rewrite Hkey, Htk. unfold_monad. simpl.
    destruct (requests_get _ _ _) as [[response|e] w].
    + destruct (status_code response =? 200).
      * destruct (json response) as [[|record data]|e].
        -- eexists _, _. repeat split; done.
        -- destruct (nonempty _); eexists _, _; repeat split; done.
        -- eexists _, _. split; [done|]. split; [done|].
           intros Himp. simpl. by rewrite Hor.
      * eexists _, _. repeat split; done.
    + eexists _, _. split; [done|]. split; [done|].
      intros Himp. simpl. by rewrite Hor.
Qed.

(** C4. What the answer of the registry becomes, for a request that was
    issued with the key [key]: status 200 and no record: found=false and
    no error; status 200 and a first record with a non-empty [form_pdf]:
    found=true with that URL; with an empty or missing [form_pdf]:
    found=false and the error "No URL in record"; any other status, a
    body that does not parse, or a request that raised: found=false with
    an error and a search number that is not empty. *)
Theorem registry_response_interpretation
    (form_info : gmap string str) (key : str) (st : state W)
    (o : outcome response) (w : W) :
  search_number_of form_info = Some key → key ≠ [] →
  requests_get usac_url (Some (where_clause key)) (world st) = (o, w) →
  ∃ r,
    search_form470 form_info st
    = (Returned r,
       {| world := w;
          calls := calls st ++ [Requests_get usac_url (Some (where_clause key))] |})
    ∧ (∀ resp, o = Returned resp → status_code resp = 200 →
       json resp = Returned [] →
       sr_found r = false ∧ sr_error r = None ∧ sr_form470_url r = None
       ∧ sr_search_number r = Some (Some key))
    ∧ (∀ resp record rest url, o = Returned resp → status_code resp = 200 →
       json resp = Returned (record :: rest) →
       record !! "form_pdf" = Some url → url ≠ [] →
       sr_found r = true ∧ sr_form470_url r = Some url ∧ sr_error r = None
       ∧ sr_search_number r = Some (Some key))
    ∧ (∀ resp record rest, o = Returned resp → status_code resp = 200 →
       json resp = Returned (record :: rest) →
       truthy (record !! "form_pdf") = false →
       sr_found r = false ∧ sr_error r = Some (py "No URL in record")
       ∧ sr_search_number r = Some (Some key))
    ∧ (∀ resp, o = Returned resp → status_code resp ≠ 200 →
       sr_found r = false
       ∧ sr_error r = Some (py "API error: " ++ py (pretty (status_code resp)))
       ∧ sr_search_number r = Some (Some key))
    ∧ (∀ resp e, o = Returned resp → status_code resp = 200 →
       json resp = Raised e →
       sr_found r = false ∧ sr_error r = Some e
       ∧ ∃ k, sr_search_number r = Some (Some k) ∧ k ≠ [])
    ∧ (∀ e, o = Raised e →
       sr_found r = false ∧ sr_error r = Some e
       ∧ ∃ k, sr_search_number r = Some (Some k) ∧ k ≠ []).
Proof.
  intros Hkey Hne Hget.
  assert (truthy (Some key) = true) as Htk by (by destruct key).
  assert (∃ k, or_else (form_info !! "establishing_form470_number")
                 (form_info !! "application_number") = Some k ∧ k ≠ [])
    as (k & Hk & Hkne).
  { apply truthy_Some, search_number_truthy. by rewrite Hkey. }
  unfold search_form470. rewrite Hkey, Htk. unfold_monad. simpl.
  rewrite Hget.
  assert (∀ record : gmap string str,
            truthy (record !! "form_pdf")
            = nonempty (default [] (record !! "form_pdf"))) as Htr
    by (intros record; by destruct (record !! "form_pdf")).
  destruct o as [response|e];
    [destruct (status_code response =? 200) eqn:Hs;
     [apply Nat.eqb_eq in Hs;
      destruct (json response) as [[|record data]|e] eqn:Hj;
      [| destruct (nonempty (default [] (record !! "form_pdf"))) eqn:Hu |]
     | apply Nat.eqb_neq in Hs] |].
  all: eexists; split; [done|].
  all: repeat split; intros; simplify_eq; simpl; try congruence.
  all: try (rewrite Hk; by eauto).
  all: try match goal with
           | Hj' : json ?x = Returned (?r :: _),
             Hj'' : json ?x = Returned (?r' :: _) |- _ =>
               assert (r = r') as -> by congruence
           end.
  all: try match goal with
           | Hr : truthy (?r !! "form_pdf") = false |- _ =>
               rewrite Htr in Hr; congruence
           end.
  all: match goal with
       | Hr : ?r !! "form_pdf" = Some ?u |- _ =>
           rewrite Hr in *; simpl in *; try done; by destruct u
       end.
Qed.

End Matcher.

(** ** Complete records *)

Lemma application_number_digits text a :
  find_application_number text = Some a → a ≠ [] ∧ all_of is_digit a.
Proof.
  unfold find_application_number.
  destruct (re_search application_number_re text) as [g|] eqn:E1.
  - intros [= <-].
    apply (re_search_first _ _ text g application_number_re_spec) in E1.
    destruct E1 as (pre & suf & _ & (L & sep & post & _ & _ & _ & Hg & Hd & _) & _).
    done.
  - intros E2.
    apply (re_search_first _ _ text a nine_digits_re_spec) in E2.
    destruct E2 as (pre & suf & _ & (post & _ & Hl & Hd) & _).
    split; [|done]. intros ->. simpl in Hl. lia.
Qed.


Section Extractor.
Context {W : Type} `{Services W}.


End Extractor.

(** ** The document locator *)

Section Locator.
Context {W : Type} `{Services W}.

Lemma fetch_attachment_returns task_id a (st : state W) :
  ∃ r st', fetch_attachment task_id a st = (Returned r, st').
Proof.
  unfold fetch_attachment.
  destruct (is_pdf_name _); [|by eexists _, _].
  destruct (truthy _); [|by eexists _, _].
  unfold_monad. destruct (requests_get _ _ _) as [[response|e] w];
    [|by eexists _, _].
  destruct (status_code response =? 200); [|by eexists _, _].
  cbn [world calls]. destruct (write_file _ _ _) as [[[]|e] w'];
    by eexists _, _.
Qed.

Lemma fetch_notes_url_returns task_id notes (st : state W) :
  ∃ r st', fetch_notes_url task_id notes st = (Returned r, st').
Proof.
  unfold fetch_notes_url.
  destruct (nonempty _); [|by eexists _, _].
  destruct (re_search _ _) as [pdf_url|]; [|by eexists _, _].
  unfold_monad. destruct (requests_get _ _ _) as [[response|e] w];
    [|by eexists _, _].
  destruct (status_code response =? 200); [|by eexists _, _].
  cbn [world calls]. destruct (write_file _ _ _) as [[[]|e] w'];
    by eexists _, _.
Qed.

Lemma fetch_attachment_not_pdf task_id a (st : state W) :
  is_pdf_name (att_name a) = false →
  fetch_attachment task_id a st = (Returned None, st).
Proof. intros Hn. unfold fetch_attachment. by rewrite Hn. Qed.

Lemma fetch_attachment_no_url task_id a (st : state W) :
  truthy (att_download_url a) = false →
  fetch_attachment task_id a st = (Returned None, st).
Proof.
  intros Hn. unfold fetch_attachment. rewrite Hn. by destruct (is_pdf_name _).
Qed.

Lemma fetch_attachment_fails task_id a url (st : state W) :
  is_pdf_name (att_name a) = true →
  att_download_url a = Some url → url ≠ [] →
  fetch_fails url (world st) →
  ∃ w',
    fetch_attachment task_id a st
    = (Returned None,
       {| world := w'; calls := calls st ++ [Requests_get url None] |}).
Proof.
  intros Hp Hu Hne Hf. unfold fetch_attachment, fetch_fails in *.
  rewrite Hp, Hu. assert (truthy (Some url) = true) as -> by (by destruct url).
  unfold_monad. simpl. destruct (requests_get _ _ _) as [[response|e] w];
    [|by eexists].
  apply Nat.eqb_neq in Hf. rewrite Hf. by eexists.
Qed.

Lemma fetch_attachment_delivers task_id a url response w1 w2 (st : state W) :
  is_pdf_name (att_name a) = true →
  att_download_url a = Some url → url ≠ [] →
  requests_get url None (world st) = (Returned response, w1) →
  status_code response = 200 →
  let file_path :=
    path_join temp_download_dir (task_id ++ py "_" ++ att_name a) in
  write_file file_path (content response) w1 = (Returned tt, w2) →
  fetch_attachment task_id a st
  = (Returned (Some file_path),
     {| world := w2;
        calls := (calls st ++ [Requests_get url None])
                 ++ [File_write file_path (content response)] |}).
Proof.
  intros Hp Hu Hne Hg Hs file_path Hw. unfold fetch_attachment.
  rewrite Hp, Hu. assert (truthy (Some url) = true) as -> by (by destruct url).
  unfold_monad. change (default [] (Some url)) with url.
  rewrite Hg, Hs, Nat.eqb_refl.
  cbn [world calls]. unfold file_path in *. by rewrite Hw.
Qed.

Lemma fetch_notes_url_fails task_id notes url (st : state W) :
  re_search pdf_url_re notes = Some url →
  fetch_fails url (world st) →
  ∃ w',
    fetch_notes_url task_id notes st
    = (Returned None,
       {| world := w'; calls := calls st ++ [Requests_get url None] |}).
Proof.
  intros Hu Hf. unfold fetch_notes_url, fetch_fails in *. rewrite Hu.
  destruct notes as [|c notes]; [by vm_compute in Hu|]. cbn [nonempty].
  unfold_monad. destruct (requests_get _ _ _) as [[response|e] w];
    [|by eexists].
  apply Nat.eqb_neq in Hf. rewrite Hf. by eexists.
Qed.

Lemma fetch_attachments_first_success task_id attachments (st : state W) :
  fetch_attachments task_id attachments st
  = first_success (map (fetch_attachment task_id) attachments) st.
Proof.
  revert st. induction attachments as [|a rest IH]; intros st; [done|].
  simpl. unfold bind.
  destruct (fetch_attachment task_id a st) as [[[p|]|e] st'];
    first [done | apply IH].
Qed.

Lemma first_success_app {A} (l1 l2 : list (M W (option A))) (st : state W) :
  first_success (l1 ++ l2) st
  = match first_success l1 st with
    | (Returned None, st') => first_success l2 st'
    | other => other
    end.
Proof.
  revert st. induction l1 as [|m l1 IH]; intros st; simpl; [done|].
  unfold bind. destruct (m st) as [[[a|]|e] st']; first [done | apply IH].
Qed.

Lemma first_success_one {A} (m : M W (option A)) (st : state W) :
  first_success [m] st = m st.
Proof.
  simpl. unfold bind, ret. by destruct (m st) as [[[a|]|e] st'].
Qed.

Lemma first_success_none {A} (ms : list (M W (option A))) (st st' : state W) :
  first_success ms st = (Returned None, st') ↔ all_fail ms st = Some st'.
Proof.
  revert st. induction ms as [|m ms IH]; intros st; simpl.
  - unfold ret. split; intros [= ->]; done.
  - unfold bind. destruct (m st) as [[[a|]|e] s1]; first [done | apply IH].
Qed.

Lemma first_success_later {A} (pre post : list (M W (option A))) m
    (st s1 s2 : state W) p :
  all_fail pre st = Some s1 → m s1 = (Returned (Some p), s2) →
  first_success (pre ++ m :: post) st = (Returned (Some p), s2).
Proof.
  intros Hpre Hm. rewrite first_success_app.
  apply first_success_none in Hpre. rewrite Hpre. simpl.
  unfold bind. by rewrite Hm.
Qed.

Lemma all_fail_not_pdf task_id attachments (st : state W) :
  no_pdf_name attachments →
  all_fail (map (fetch_attachment task_id) attachments) st = Some st.
Proof.
  unfold no_pdf_name. induction attachments as [|a rest IH]; [done|].
  simpl. intros [Ha Hrest]%andb_true_iff. apply negb_true_iff in Ha.
  rewrite fetch_attachment_not_pdf by done. by apply IH.
Qed.

Lemma first_success_returns {A} (ms : list (M W (option A))) (st : state W) :
  Forall (fun m => ∀ s, ∃ r s', m s = (Returned r, s')) ms →
  ∃ r st', first_success ms st = (Returned r, st').
Proof.
  intros Hms. revert st. induction Hms as [|m ms Hm _ IH]; intros st; simpl.
  - by eexists _, _.
  - unfold bind. destruct (Hm st) as ([a|] & s' & ->); [by eexists _, _|].
    apply IH.
Qed.


(** Once the task is retrieved, the locator is the run of its attempts. *)
Lemma download_first_success task_id (st : state W) t w1 :
  tasks_find_by_id task_id (world st) = (Returned t, w1) →
  download_pdf_from_task task_id st
  = first_success (locator_attempts task_id t)
      {| world := w1; calls := calls st ++ [Tasks_find_by_id task_id] |}.
Proof.
  intros Hfind. unfold download_pdf_from_task, locator_attempts.
  rewrite first_success_app. unfold try_except, bind at 1, perform.
  rewrite Hfind. unfold bind. rewrite fetch_attachments_first_success.
  set (st1 := {| world := w1; calls := _ |}).
  destruct (first_success_returns (map (fetch_attachment task_id)
              (task_attachments t)) st1) as ([p|] & s' & ->).
  { apply Forall_map, Forall_forall. intros a _ s.
    apply fetch_attachment_returns. }
  - done.
  - rewrite first_success_one.
    by destruct (fetch_notes_url_returns task_id (task_notes t) s')
      as (r & s'' & ->).
Qed.


(** C8 (as the code has it).  Once the task is retrieved: the first
    attachment with a pdf name is fetched first, and when that fetch
    delivers, the locator returns the path of the file it wrote; without
    any attachment with a pdf name, the locator does what the first pdf
    URL of the notes gives; and it returns the one value [None] both when
    there is no source at all and when the fetch of the only source
    fails. *)
Theorem locator_preference (task_id : str) (st : state W) (t : task) (w1 : W) :
  tasks_find_by_id task_id (world st) = (Returned t, w1) →
  let st1 := {| world := w1; calls := calls st ++ [Tasks_find_by_id task_id] |} in
  (∀ pre a post url response w2 w3,
     task_attachments t = pre ++ a :: post → no_pdf_name pre →
     is_pdf_name (att_name a) = true →
     att_download_url a = Some url → url ≠ [] →
     requests_get url None w1 = (Returned response, w2) →
     status_code response = 200 →
     let file_path :=
       path_join temp_download_dir (task_id ++ py "_" ++ att_name a) in
     write_file file_path (content response) w2 = (Returned tt, w3) →
     download_pdf_from_task task_id st
     = (Returned (Some file_path),
        {| world := w3;
           calls := (calls st1 ++ [Requests_get url None])
                    ++ [File_write file_path (content response)] |}))
  ∧ (no_pdf_name (task_attachments t) →
     download_pdf_from_task task_id st
     = fetch_notes_url task_id (task_notes t) st1)
  ∧ (no_pdf_name (task_attachments t) →
     re_search pdf_url_re (task_notes t) = None →
     download_pdf_from_task task_id st = (Returned None, st1))
  ∧ (∀ url,
       no_pdf_name (task_attachments t) →
       re_search pdf_url_re (task_notes t) = Some url →
       fetch_fails url w1 →
       ∃ st', download_pdf_from_task task_id st = (Returned None, st'))
  ∧ (∀ a url,
       task_attachments t = [a] → is_pdf_name (att_name a) = true →
       att_download_url a = Some url → fetch_fails url w1 →
       re_search pdf_url_re (task_notes t) = None →
       ∃ st', download_pdf_from_task task_id st = (Returned None, st')).
Proof.
  intros Hfind st1. pose proof (download_first_success _ _ _ _ Hfind) as Heq.
  fold st1 in Heq.
  assert (no_pdf_name (task_attachments t) →
          download_pdf_from_task task_id st
          = fetch_notes_url task_id (task_notes t) st1) as Hnotes.
  { intros Hno. rewrite Heq. unfold locator_attempts.
    rewrite first_success_app.
    pose proof (all_fail_not_pdf task_id _ st1 Hno) as Hall.
    apply first_success_none in Hall. rewrite Hall.
    apply first_success_one. }
  assert (∀ s : state W, re_search pdf_url_re (task_notes t) = None →
          fetch_notes_url task_id (task_notes t) s = (Returned None, s))
    as Hnourl.
  { intros s Hn. unfold fetch_notes_url. rewrite Hn.
    by destruct (nonempty _). }
  repeat split.
  - intros pre a post url response w2 w3 Hl Hno Hp Hu Hne Hg Hs file_path Hw.
    rewrite Heq. unfold locator_attempts. rewrite Hl, map_app. simpl.
    rewrite <- app_assoc. simpl.
    eapply first_success_later; [by apply all_fail_not_pdf|].
    by apply (fetch_attachment_delivers task_id a url response w2 w3 st1).
  - exact Hnotes.
  - intros Hno Hn. rewrite Hnotes by done. by apply Hnourl.
  - intros url Hno Hu Hf. rewrite Hnotes by done.
    destruct (fetch_notes_url_fails task_id _ url st1 Hu Hf) as (w' & ->).
    by eexists.
  - intros a url Ha Hp Hu Hf Hn. rewrite Heq. unfold locator_attempts.
    rewrite Ha. simpl. unfold bind.
    destruct (truthy (att_download_url a)) eqn:Ht.
    + assert (url ≠ []) as Hne by (rewrite Hu in Ht; by destruct url).
      destruct (fetch_attachment_fails task_id a url st1 Hp Hu Hne Hf)
        as (w' & ->).
      rewrite Hnourl by done. by eexists.
    + rewrite fetch_attachment_no_url by done.
      rewrite Hnourl by done. by eexists.
Qed.

End Locator.

(** ** The task store *)

Lemma find_first_such {A} (p : A -> bool) (P : A -> Prop) (l : list A) :
  (∀ x, p x = true ↔ P x) →
  (∀ s, List.find p l = Some s ↔ first_such P l s)
  ∧ (List.find p l = None ↔ Forall (fun x => ¬ P x) l).
Proof.
  intros HP. unfold first_such. induction l as [|a l [IH1 IH2]]; simpl.
  - split.
    + intros s. split; [done|]. intros (pre & post & Hl & _).
      destruct pre; discriminate.
    + split; [constructor | done].
  - destruct (p a) eqn:Ha.
    + split.
      * intros s. split.
        -- intros [= <-]. exists [], l. repeat split; [by apply HP | constructor].
        -- intros (pre & post & Hl & Hs & Hpre).
           destruct pre as [|x pre]; simpl in Hl.
           ++ by injection Hl as ->.
           ++ injection Hl as -> _. apply Forall_cons in Hpre as [Hx _].
              destruct Hx. by apply HP.
      * split; [done|]. intros [Hn _]%Forall_cons. destruct Hn. by apply HP.
    + assert (¬ P a) as Hna by (rewrite <- HP; congruence). split.
      * intros s. rewrite IH1. split.
        -- intros (pre & post & -> & Hs & Hpre). exists (a :: pre), post.
           repeat split; [done|]. by constructor.
        -- intros (pre & post & Hl & Hs & Hpre).
           destruct pre as [|x pre]; simpl in Hl.
           ++ injection Hl as -> _. done.
           ++ injection Hl as -> ->. apply Forall_cons in Hpre as [_ Hpre].
              eauto.
      * rewrite IH2. split; [by constructor | by intros [_ ?]%Forall_cons].
Qed.

Lemma is_processing_section_spec s :
  is_processing_section s = true ↔ names_both "processing" s.
Proof.
  unfold is_processing_section, names_both.
  by rewrite andb_true_iff, !contains_spec.
Qed.

Lemma is_manual_followup_section_spec s :
  is_manual_followup_section s = true ↔ names_both "manual follow-up" s.
Proof.
  unfold is_manual_followup_section, names_both.
  by rewrite andb_true_iff, !contains_spec.
Qed.

Lemma is_issues_section_spec s :
  is_issues_section s = true ↔ names_both "issues" s.
Proof.
  unfold is_issues_section, names_both.
  by rewrite andb_true_iff, !contains_spec.
Qed.

Lemma in_qa_section_spec t :
  in_qa_section t = true
  ↔ ∃ name, In name (task_sections t) ∧ lower name = py "qa".
Proof.
  unfold in_qa_section. rewrite existsb_exists.
  split; intros (name & Hin & Hn); exists name; split; try done.
  - by apply bool_decide_eq_true in Hn.
  - by apply bool_decide_eq_true.
Qed.

Section TaskStore.
Context {W : Type} `{Services W}.

Lemma get_qa_tasks_returns (st : state W) :
  ∃ r st', get_qa_tasks st = (Returned r, st').
Proof.
  unfold get_qa_tasks. unfold_monad.
  destruct (tasks_find_by_project _) as [[tasks|e] w]; by eexists _, _.
Qed.

(** What a move does, by the answer to the listing of the sections. *)
Lemma move_task_to_processing_calls task_id (st : state W) :
  ∃ b st' cs,
    move_task_to_processing task_id st = (Returned b, st')
    ∧ calls st' = calls st ++ cs
    ∧ match sections_find_by_project (world st) with
      | (Returned sections, _) =>
          match List.find is_processing_section sections with
          | Some s =>
              cs = [Sections_find_by_project; Sections_add_task (sec_gid s) task_id]
              ∨ cs = move_calls s task_id processing_comment
          | None => cs = [Sections_find_by_project] ∧ b = false
          end
      | (Raised _, _) => cs = [Sections_find_by_project] ∧ b = false
      end.
Proof.
  unfold move_task_to_processing, move_calls. unfold_monad.
  destruct (sections_find_by_project _) as [[sections|e] w]; cbn [world calls].
  - destruct (List.find _ sections) as [s|].
    + cbn [world calls].
      destruct (sections_add_task _ _ _) as [[[]|e] w1]; cbn [world calls].
      * shape. by left.
      * destruct (tasks_add_comment _ _ _) as [[[]|e'] w2]; cbn [world calls].
        all: shape; by right.
    + by shape.
  - by shape.
Qed.

Lemma move_task_to_manual_followup_calls task_id reason (st : state W) :
  ∃ b st' cs,
    move_task_to_manual_followup task_id reason st = (Returned b, st')
    ∧ calls st' = calls st ++ cs
    ∧ match sections_find_by_project (world st) with
      | (Returned sections, _) =>
          match List.find is_manual_followup_section sections with
          | Some s => cs = move_calls s task_id (manual_followup_comment reason)
          | None => cs = [Sections_find_by_project] ∧ b = false
          end
      | (Raised _, _) => cs = [Sections_find_by_project] ∧ b = false
      end.
Proof.
  unfold move_task_to_manual_followup, move_calls. unfold_monad.
  destruct (sections_find_by_project _) as [[sections|e] w]; cbn [world calls].
  - destruct (List.find _ sections) as [s|].
    + cbn [world calls].
      destruct (sections_add_task _ _ _) as [[[]|e] w1]; cbn [world calls].
      all: destruct (tasks_add_comment _ _ _) as [[[]|e'] w2]; cbn [world calls].
      all: by shape.
    + by shape.
  - by shape.
Qed.

Lemma move_task_to_issues_calls task_id reason (st : state W) :
  ∃ b st' cs,
    move_task_to_issues task_id reason st = (Returned b, st')
    ∧ calls st' = calls st ++ cs
    ∧ match sections_find_by_project (world st) with
      | (Returned sections, _) =>
          match List.find is_issues_section sections with
          | Some s => cs = move_calls s task_id (issues_comment reason)
          | None => cs = [Sections_find_by_project] ∧ b = false
          end
      | (Raised _, _) => cs = [Sections_find_by_project] ∧ b = false
      end.
Proof.
  unfold move_task_to_issues, move_calls. unfold_monad.
  destruct (sections_find_by_project _) as [[sections|e] w]; cbn [world calls].
  - destruct (List.find _ sections) as [s|].
    + cbn [world calls].
      destruct (sections_add_task _ _ _) as [[[]|e] w1]; cbn [world calls].
      all: destruct (tasks_add_comment _ _ _) as [[[]|e'] w2]; cbn [world calls].
      all: by shape.
    + by shape.
  - by shape.
Qed.

(** C9 (as the code has it).  The backlog is made of the tasks with a
    membership in a section whose name, lowered, is equal to "qa".  Each
    of the three moves takes the first section of the listing whose
    lowered name contains "qa" and its own word ("processing", "manual
    follow-up", "issues") and adds the task to it; when no section
    qualifies it does nothing more and answers [False]. *)
Theorem category_lookup (task_id reason : str) (st : state W) :
  (∀ tasks w1,
     tasks_find_by_project (world st) = (Returned tasks, w1) →
     ∃ qa_tasks,
       get_qa_tasks st
       = (Returned qa_tasks,
          {| world := w1; calls := calls st ++ [Tasks_find_by_project] |})
       ∧ ∀ t, In t qa_tasks
              ↔ In t tasks
                ∧ ∃ name, In name (task_sections t) ∧ lower name = py "qa")
  ∧ (∀ sections w1,
       sections_find_by_project (world st) = (Returned sections, w1) →
       let st1 := {| world := w1;
                     calls := calls st ++ [Sections_find_by_project] |} in
       (∀ s, first_such (names_both "processing") sections s →
          ∃ b st' rest,
            move_task_to_processing task_id st = (Returned b, st')
            ∧ calls st'
              = calls st ++ Sections_find_by_project
                  :: Sections_add_task (sec_gid s) task_id :: rest)
       ∧ (Forall (fun s => ¬ names_both "processing" s) sections →
          move_task_to_processing task_id st = (Returned false, st1))
       ∧ (∀ s, first_such (names_both "manual follow-up") sections s →
          ∃ b st',
            move_task_to_manual_followup task_id reason st = (Returned b, st')
            ∧ calls st'
              = calls st ++ move_calls s task_id (manual_followup_comment reason))
       ∧ (Forall (fun s => ¬ names_both "manual follow-up" s) sections →
          move_task_to_manual_followup task_id reason st = (Returned false, st1))
       ∧ (∀ s, first_such (names_both "issues") sections s →
          ∃ b st',
            move_task_to_issues task_id reason st = (Returned b, st')
            ∧ calls st' = calls st ++ move_calls s task_id (issues_comment reason))
       ∧ (Forall (fun s => ¬ names_both "issues" s) sections →
          move_task_to_issues task_id reason st = (Returned false, st1))).
Proof.
  split.
  - intros tasks w1 Hfind. unfold get_qa_tasks. unfold_monad. rewrite Hfind.
    eexists. split; [done|]. intros t.
    by rewrite filter_In, in_qa_section_spec.
  - intros sections w1 Hsec st1.
    destruct (find_first_such _ _ sections is_processing_section_spec)
      as [Hp1 Hp2].
    destruct (find_first_such _ _ sections is_manual_followup_section_spec)
      as [Hm1 Hm2].
    destruct (find_first_such _ _ sections is_issues_section_spec)
      as [Hi1 Hi2].
    repeat split.
    + intros s Hs. apply Hp1 in Hs.
      destruct (move_task_to_processing_calls task_id st)
        as (b & st' & cs & Hrun & Hcalls & Hshape).
      rewrite Hsec, Hs in Hshape. exists b, st'.
      destruct Hshape as [-> | ->]; eexists; split; try done;
        rewrite Hcalls; done.
    + intros Hno. apply Hp2 in Hno. unfold move_task_to_processing.
      unfold_monad. by rewrite Hsec, Hno.
    + intros s Hs. apply Hm1 in Hs.
      destruct (move_task_to_manual_followup_calls task_id reason st)
        as (b & st' & cs & Hrun & Hcalls & Hshape).
      rewrite Hsec, Hs in Hshape. exists b, st'. by subst cs.
    + intros Hno. apply Hm2 in Hno. unfold move_task_to_manual_followup.
      unfold_monad. by rewrite Hsec, Hno.
    + intros s Hs. apply Hi1 in Hs.
      destruct (move_task_to_issues_calls task_id reason st)
        as (b & st' & cs & Hrun & Hcalls & Hshape).
      rewrite Hsec, Hs in Hshape. exists b, st'. by subst cs.
    + intros Hno. apply Hi2 in Hno. unfold move_task_to_issues.
      unfold_monad. by rewrite Hsec, Hno.
Qed.

End TaskStore.

(** ** The drivers *)

Section Drivers.
Context {W : Type} `{Services W}.

Lemma path_join_nonempty a b : b ≠ [] → path_join a b ≠ [].
Proof.
  intros Hb. unfold path_join. destruct (startswith _ b); [done|].
  destruct (nonempty a && _); intros Hn.
  - apply app_eq_nil in Hn as [_ Hn]. discriminate.
  - apply app_eq_nil in Hn as [_ Hn]. done.
Qed.

Lemma file_path_nonempty task_id name :
  path_join temp_download_dir (task_id ++ py "_" ++ name) ≠ [].
Proof.
  apply path_join_nonempty. intros Hn.
  apply app_eq_nil in Hn as [_ Hn]. discriminate.
Qed.

(** What one attempt of the locator does. *)
Lemma fetch_attachment_calls task_id a (st : state W) :
  ∃ r st' cs,
    fetch_attachment task_id a st = (Returned r, st')
    ∧ calls st' = calls st ++ cs
    ∧ Forall reading_call cs ∧ r ≠ Some [].
Proof.
  unfold fetch_attachment.
  destruct (is_pdf_name _); [|exists None, st, []; by rewrite app_nil_r].
  destruct (truthy _); [|exists None, st, []; by rewrite app_nil_r].
  unfold_monad. destruct (requests_get _ _ _) as [[response|e] w];
    cbn [world calls].
  - destruct (status_code response =? 200); cbn [world calls].
    + destruct (write_file _ _ _) as [[[]|e] w']; cbn [world calls].
      * shape. split; [by repeat constructor|].
        intros [= Hp]. by apply file_path_nonempty in Hp.
      * shape. split; [by repeat constructor | done].
    + shape. split; [by repeat constructor | done].
  - shape. split; [by repeat constructor | done].
Qed.

Lemma fetch_notes_url_calls task_id notes (st : state W) :
  ∃ r st' cs,
    fetch_notes_url task_id notes st = (Returned r, st')
    ∧ calls st' = calls st ++ cs
    ∧ Forall reading_call cs ∧ r ≠ Some [].
Proof.
  unfold fetch_notes_url.
  destruct (nonempty _); [|exists None, st, []; by rewrite app_nil_r].
  destruct (re_search _ _); [|exists None, st, []; by rewrite app_nil_r].
  unfold_monad. destruct (requests_get _ _ _) as [[response|e] w];
    cbn [world calls].
  - destruct (status_code response =? 200); cbn [world calls].
    + destruct (write_file _ _ _) as [[[]|e] w']; cbn [world calls].
      * shape. split; [by repeat constructor|].
        intros [= Hp]. by apply file_path_nonempty in Hp.
      * shape. split; [by repeat constructor | done].
    + shape. split; [by repeat constructor | done].
  - shape. split; [by repeat constructor | done].
Qed.

Lemma fetch_attachments_calls task_id attachments (st : state W) :
  ∃ r st' cs,
    fetch_attachments task_id attachments st = (Returned r, st')
    ∧ calls st' = calls st ++ cs
    ∧ Forall reading_call cs ∧ r ≠ Some [].
Proof.
  revert st. induction attachments as [|a rest IH]; intros st; simpl.
  - exists None, st, []. by rewrite app_nil_r.
  - unfold bind.
    destruct (fetch_attachment_calls task_id a st)
      as (r & s1 & cs1 & -> & Hc1 & Hr1 & Hne).
    destruct r as [p|].
    + exists (Some p), s1, cs1. done.
    + destruct (IH s1) as (r & s2 & cs2 & -> & Hc2 & Hr2 & Hne2).
      exists r, s2, (cs1 ++ cs2). rewrite Hc2, Hc1, app_assoc.
      repeat split; try done. by apply Forall_app.
Qed.





(** What [create_manual_review_subtask] does, by the answers it gets. *)
Lemma create_manual_review_subtask_calls task_id form_info (st : state W) :
  ∃ b st' cs,
    create_manual_review_subtask task_id form_info st = (Returned b, st')
    ∧ calls st' = calls st ++ cs
    ∧ match tasks_find_by_id task_id (world st) with
      | (Returned _, w1) =>
          match projects_find_by_id w1 with
          | (Returned workspace_gid, _) =>
              if truthy workspace_gid then
                cs = subtask_calls task_id
                       {| sub_name := subtask_name form_info;
                          sub_notes := subtask_notes form_info;
                          sub_parent := task_id;
                          sub_workspace := default [] workspace_gid |}
              else cs = [Tasks_find_by_id task_id; Projects_find_by_id]
                   ∧ b = false
          | (Raised _, _) =>
              cs = [Tasks_find_by_id task_id; Projects_find_by_id] ∧ b = false
          end
      | (Raised _, _) => cs = [Tasks_find_by_id task_id] ∧ b = false
      end.
Proof.
  unfold create_manual_review_subtask, subtask_calls. unfold_monad.
  destruct (tasks_find_by_id _ _) as [[t|e] w1]; cbn [world calls];
    [|by shape].
  destruct (projects_find_by_id _) as [[workspace_gid|e] w2];
    cbn [world calls]; [|by shape].
  destruct (truthy workspace_gid); cbn [negb world calls]; [|by shape].
  destruct (tasks_create _ _) as [[name|e] w3]; by shape.
Qed.

Lemma issues_move_shape task_id reason (st : state W) :
  ∃ b st' cs,
    move_task_to_issues task_id reason st = (Returned b, st')
    ∧ calls st' = calls st ++ cs
    ∧ (cs = [Sections_find_by_project]
       ∨ ∃ s, names_both "issues" s
              ∧ cs = move_calls s task_id (issues_comment reason)).
Proof.
  destruct (move_task_to_issues_calls task_id reason st)
    as (b & st' & cs & Hrun & Hcalls & Hshape).
  exists b, st', cs. repeat split; try done.
  destruct (sections_find_by_project _) as [[sections|e] w];
    [|left; by destruct Hshape].
  destruct (List.find _ sections) as [s|] eqn:Hf; [|left; by destruct Hshape].
  right. exists s. split; [|done].
  apply find_some in Hf as [_ Hs]. by apply is_issues_section_spec.
Qed.

Lemma manual_followup_move_shape task_id reason (st : state W) :
  ∃ b st' cs,
    move_task_to_manual_followup task_id reason st = (Returned b, st')
    ∧ calls st' = calls st ++ cs
    ∧ (cs = [Sections_find_by_project]
       ∨ ∃ s, names_both "manual follow-up" s
              ∧ cs = move_calls s task_id (manual_followup_comment reason)).
Proof.
  destruct (move_task_to_manual_followup_calls task_id reason st)
    as (b & st' & cs & Hrun & Hcalls & Hshape).
  exists b, st', cs. repeat split; try done.
  destruct (sections_find_by_project _) as [[sections|e] w];
    [|left; by destruct Hshape].
  destruct (List.find _ sections) as [s|] eqn:Hf; [|left; by destruct Hshape].
  right. exists s. split; [|done].
  apply find_some in Hf as [_ Hs]. by apply is_manual_followup_section_spec.
Qed.



Lemma truthy_path (path : str) : path ≠ [] → truthy (Some path) = true.
Proof. by destruct path. Qed.

Lemma dict_nonempty_spec (d : gmap string str) :
  dict_nonempty d = true ↔ d ≠ ∅.
Proof.
  unfold dict_nonempty. rewrite negb_true_iff, bool_decide_eq_false. done.
Qed.





End Drivers.

(** ** The scenarios, run *)

(** The example of the specification: with an establishing Form 470 number
    on a Form 471, the search key is that number, not the application
    number. *)
Example search_key_of_a_471 :
  form_info_of_text doc_471 !! "application_number" = Some (py "251043327")
  ∧ form_info_of_text doc_471 !! "form_type" = Some (py "471")
  ∧ search_number_of (form_info_of_text doc_471) = Some (py "123456789012345").
Proof. vm_compute. repeat split; reflexivity. Qed.

(** C4 at work: the registry has no record for the key. *)
Lemma registry_without_record :
  ∃ r,
    fst (search_form470 (form_info_of_text doc_471) (start world_471_none))
    = Returned r
    ∧ sr_found r = false ∧ sr_error r = None.
Proof.
  destruct (registry_response_interpretation
              (form_info_of_text doc_471) (py "123456789012345")
              (start world_471_none) (registry_response []) world_471_none)
    as (r & Hrun & Hzero & _).
  - reflexivity.
  - discriminate.
  - reflexivity.
  - exists r. rewrite Hrun. split; [reflexivity|].
    destruct (Hzero _ eq_refl eq_refl eq_refl) as (Hf & He & _).
    split; assumption.
Defined.

(** C8 at work: without attachment the notes give the document. *)
Lemma locator_reads_the_notes :
  fst (download_pdf_from_task (py "1") (start world_471_none))
  = Returned (Some saved_path).
Proof.
  destruct (locator_preference (py "1") (start world_471_none)
              task_with_url world_471_none) as (_ & Hnotes & _).
  - reflexivity.
  - rewrite Hnotes by reflexivity. reflexivity.
Defined.

(** C8, the claim as written fails: the attachment has a pdf name and its
    fetch answers 404, yet the locator does not fail, it delivers the
    document of the notes; and it answers with the same [None] when there
    is no source and when the only source cannot be fetched. *)
Lemma locator_one_failure_value :
  is_pdf_name (py "Scan.PDF") = true
  ∧ fst (requests_get scan_url None world_two_sources) = status_response 404
  ∧ fst (download_pdf_from_task (py "1") (start world_two_sources))
    = Returned (Some saved_path)
  ∧ fst (download_pdf_from_task (py "1") (start world_without_source))
    = Returned None
  ∧ fst (download_pdf_from_task (py "1") (start world_broken_url))
    = Returned None.
Proof. repeat split; reflexivity. Qed.


(** C9, the claim as written fails: the names "QA Backlog" and
    "QA – Processing" contain "qa", but only the task of the section named
    "Qa" is in the backlog. *)
Lemma backlog_is_an_exact_match :
  contains (py "qa") (lower (py "QA Backlog")) = true
  ∧ contains (py "qa") (lower (py "QA – Processing")) = true
  ∧ map (fun t => (task_gid t, task_sections t)) (mw_tasks world_other_sections)
    = [ (py "1", [py "Qa"]); (py "2", [py "QA Backlog"]);
        (py "3", [py "QA – Processing"]) ]
  ∧ match fst (get_qa_tasks (start world_other_sections)) with
    | Returned qa_tasks => map task_gid qa_tasks = [py "1"]
    | Raised _ => False
    end.
Proof. repeat split; reflexivity. Qed.





(** * Further properties *)

(** ** More on strings and on the matcher *)




Lemma all_of_take_while p q (s : str) : all_of p s → all_of p (take_while q s).
Proof.
  unfold all_of. induction s as [|c s IH]; simpl; [done|].
  intros [Hc Hs]%andb_true_iff. destruct (q c); [|done].
  simpl. by rewrite Hc, IH.
Qed.

Lemma all_of_take p n (s : str) : all_of p s → all_of p (take n s).
Proof.
  unfold all_of. revert n. induction s as [|c s IH]; intros [|n]; simpl;
    try done.
  intros [Hc Hs]%andb_true_iff. by rewrite Hc, IH.
Qed.

Lemma take_take_while p n (s : str) :
  n ≤ length (take_while p s) → all_of p (take n s).
Proof.
  intros Hn. replace (take n s) with (take n (take_while p s)).
  - apply all_of_take, take_while_all.
  - rewrite <- (take_drop_while p s) at 2. by rewrite take_app_le.
Qed.

Lemma drop_while_all p (s : str) : all_of p s → drop_while p s = [].
Proof.
  unfold all_of. induction s as [|c s IH]; simpl; [done|].
  intros [-> Hs]%andb_true_iff. by apply IH.
Qed.

Lemma drop_while_stopped p (s : str) : stops p s → drop_while p s = s.
Proof. destruct s as [|c s]; simpl; [done|]. by intros ->. Qed.

Lemma take_while_stopped p (s : str) : stops p s → take_while p s = [].
Proof. destruct s as [|c s]; simpl; [done|]. by intros ->. Qed.



Lemma strip_trimmed (s : str) : trimmed s → strip s = s.
Proof.
  intros [Hl Hr]. unfold strip.
  rewrite (drop_while_stopped _ s Hl), (drop_while_stopped _ (rev s) Hr).
  apply rev_involutive.
Qed.

(** A greedy repetition fails when the continuation fails after every
    number of repetitions it could make. *)
Lemma rstar_none p (k : cont) s g :
  rstar p k s g = None
  ↔ ∀ n, n ≤ length (take_while p s) → k (drop n s) g = None.
Proof.
  induction s as [|c s IH]; simpl.
  - split.
    + intros Hk n _. by destruct n.
    + intros Hk. apply (Hk 0). lia.
  - destruct (p c) eqn:Hc; simpl.
    + destruct (rstar p k s g) as [x|] eqn:E.
      * split; [done|]. intros Hk.
        assert (Some x = None) as Hx; [|done].
        apply IH. intros n Hn. apply (Hk (S n)). lia.
      * split.
        -- intros Hk [|n] Hn; [done|]. simpl.
           apply (proj1 IH eq_refl). lia.
        -- intros Hk. apply (Hk 0). lia.
    + split.
      * intros Hk n Hn. by replace n with 0 by lia.
      * intros Hk. apply (Hk 0). lia.
Qed.

(** A greedy repetition goes on with the longest run after which the
    continuation succeeds. *)
Lemma rstar_longest p (k : cont) s g x :
  rstar p k s g = Some x
  ↔ ∃ n, n ≤ length (take_while p s) ∧ k (drop n s) g = Some x
         ∧ ∀ m, n < m → m ≤ length (take_while p s) → k (drop m s) g = None.
Proof.
  revert x. induction s as [|c s IH]; intros x; simpl.
  - split.
    + intros Hk. exists 0. split; [lia|]. split; [done|]. intros; lia.
    + intros (n & Hn & Hk & _). by destruct n.
  - destruct (p c) eqn:Hc; simpl.
    + destruct (rstar p k s g) as [y|] eqn:E.
      * split.
        -- intros [= ->]. destruct (proj1 (IH x) eq_refl) as (n & Hn & Hk & Hmax).
           exists (S n). split; [lia|]. split; [done|].
           intros [|m] Hm Hle; [lia|]. apply Hmax; lia.
        -- intros (n & Hn & Hk & Hmax). destruct n as [|n].
           ++ assert (Some y = None) as Hy; [|done].
              rewrite <- E. apply rstar_none.
              intros m Hm. apply (Hmax (S m)); lia.
           ++ apply IH. exists n.
              split; [lia|]. split; [done|].
              intros m Hm Hle. apply (Hmax (S m)); lia.
      * split.
        -- intros Hk. exists 0. split; [lia|]. split; [done|].
           intros [|m] Hm Hle; [lia|]. simpl.
           apply (proj1 (rstar_none p k s g) E). lia.
        -- intros (n & Hn & Hk & Hmax). destruct n as [|n]; [done|].
           simpl in Hk. pose proof (proj1 (rstar_none p k s g) E n) as Hno.
           rewrite Hno in Hk; [done | lia].
    + split.
      * intros Hk. exists 0. split; [lia|]. split; [done|]. intros; lia.
      * intros (n & Hn & Hk & _). by replace n with 0 in Hk by lia.
Qed.

(** Every word the matcher accepts is a word of the pattern. *)
Lemma rmatch_sound r (k : cont) s g x :
  rmatch r k s g = Some x →
  ∃ w s' g', s = w ++ s' ∧ matches r w ∧ k s' g' = Some x.
Proof.
  revert k s g x. induction r as [p|p|p|r1 IH1 r2 IH2| |r1 IH1];
    intros k s g x Hm; simpl in Hm.
  - destruct s as [|c s]; [done|]. destruct (p c) eqn:Hc; [|done].
    exists [c], s, g. simpl. eauto.
  - apply rstar_longest in Hm as (n & Hn & Hk & _).
    exists (take n s), (drop n s), g. rewrite take_drop.
    repeat split; [|done]. by apply take_take_while.
  - destruct s as [|c s].
    + exists [], [], g. simpl. eauto.
    + destruct (p c) eqn:Hc.
      * destruct (k s g) as [y|] eqn:E.
        -- injection Hm as ->. exists [c], s, g. simpl. eauto 6.
        -- exists [], (c :: s), g. simpl. eauto.
      * exists [], (c :: s), g. simpl. eauto.
  - apply IH1 in Hm as (w1 & s1 & g1 & -> & Hw1 & Hm).
    apply IH2 in Hm as (w2 & s2 & g2 & -> & Hw2 & Hk).
    exists (w1 ++ w2), s2, g2. rewrite <- app_assoc. simpl. eauto 8.
  - exists [], s, g. simpl. eauto.
  - apply IH1 in Hm as (w & s' & g' & -> & Hw & Hk).
    eexists w, s', _. simpl. eauto.
Qed.

(** A pattern that is one group captures the word it matched. *)
Lemma re_match_group r s g :
  re_match (RGroup r) s = Some g → ∃ s', s = g ++ s' ∧ matches r g.
Proof.
  unfold re_match. cbn [rmatch]. intros Hm.
  apply rmatch_sound in Hm as (w & s' & g' & -> & Hw & Hk).
  rewrite length_app, Nat.add_sub, take_app_length in Hk.
  injection Hk as <-. by exists s'.
Qed.

Lemma matches_lit_ci l r w :
  matches (lit_ci l r) w →
  ∃ L w', w = L ++ w' ∧ lower L = lower l ∧ matches r w'.
Proof.
  revert w. induction l as [|c l IH]; intros w; simpl.
  - intros Hw. by exists [], w.
  - intros (w1 & w2 & -> & (x & -> & Hx) & Hw2).
    apply IH in Hw2 as (L & w' & -> & HL & Hw').
    exists (x :: L), w'. simpl. unfold ci_char in Hx.
    apply bool_decide_eq_true in Hx. by rewrite Hx, HL.
Qed.

(** The matches of [re.search] are parts of the text. *)
Lemma re_search_suffix r text g :
  re_search r text = Some g →
  ∃ pre suf, text = pre ++ suf ∧ re_match r suf = Some g.
Proof.
  intros H.
  apply (re_search_first r (fun suf x => re_match r suf = Some x)) in H;
    [|done].
  destruct H as (pre & suf & -> & Hm & _). eauto.
Qed.

(** ** More on the field extractor *)











Lemma form_info_establishing text a :
  find_application_number text = Some a →
  form_info_of_text text !! "establishing_form470_number"
  = if truthy (find_establishing_form470_number (classify_form_type text) text)
    then find_establishing_form470_number (classify_form_type text) text
    else None.
Proof.
  intros Ha. unfold form_info_of_text. rewrite Ha.
  destruct (find_establishing_form470_number _ text) as [e|]; simpl.
  - destruct (nonempty e); by simplify_map_eq.
  - by simplify_map_eq.
Qed.





(** ** More on the registry matcher *)

Section MatcherInvariants.
Context {W : Type} `{Services W}.

(** X4. [search_form470] never raises and issues at most one request, and
    only to the registry.  An answer with found=true has a non-empty URL,
    which is the [form_pdf] of the record it carries, and no error; an
    answer with found=false has neither URL nor record. *)
Theorem search_result_invariant (form_info : gmap string str) (st : state W) :
  ∃ r st',
    search_form470 form_info st = (Returned r, st')
    ∧ (sr_found r = true →
       ∃ url record,
         sr_form470_url r = Some url ∧ url ≠ []
         ∧ sr_record r = Some record ∧ record !! "form_pdf" = Some url
         ∧ sr_error r = None
         ∧ sr_search_number r = Some (search_number_of form_info))
    ∧ (sr_found r = false → sr_form470_url r = None ∧ sr_record r = None)
    ∧ ((st' = st ∧ sr_found r = false
        ∧ sr_error r = Some (py "No search number found"))
       ∨ ∃ key,
           search_number_of form_info = Some key ∧ key ≠ []
           ∧ calls st'
             = calls st ++ [Requests_get usac_url (Some (where_clause key))]).
Proof.
  unfold search_form470.
  destruct (truthy (search_number_of form_info)) eqn:Hkey; cbn [negb].
  - apply truthy_Some in Hkey as (key & Hkey & Hne). rewrite Hkey.
    unfold_monad. cbn [default from_option id].
    destruct (requests_get _ _ _) as [[response|e] w]; cbn [world calls].
    + destruct (status_code response =? 200).
      * destruct (json response) as [[|record data]|e].
        -- eexists _, _. split; [done|]. simpl.
           split; [done|]. split; [done|]. right. eauto.
        -- destruct (record !! "form_pdf") as [url|] eqn:Hurl; simpl.
           ++ destruct (nonempty url) eqn:Hu.
              ** eexists _, _. split; [done|]. simpl.
                 split; [|split; [done|right; eauto]].
                 intros _. exists url, record.
                 repeat split; try done. by destruct url.
              ** eexists _, _. split; [done|]. simpl.
                 split; [done|]. split; [done|]. right. eauto.
           ++ eexists _, _. split; [done|]. simpl.
              split; [done|]. split; [done|]. right. eauto.
        -- eexists _, _. split; [done|]. simpl.
           split; [done|]. split; [done|]. right. eauto.
      * eexists _, _. split; [done|]. simpl.
        split; [done|]. split; [done|]. right. eauto.
    + eexists _, _. split; [done|]. simpl.
      split; [done|]. split; [done|]. right. eauto.
  - eexists _, _. unfold ret. split; [done|]. simpl.
    split; [done|]. split; [done|]. by left.
Qed.

Lemma search_result_shape_of_key form_info key (st : state W) :
  search_number_of form_info = Some key → key ≠ [] →
  ∃ r st',
    search_form470 form_info st = (Returned r, st')
    ∧ calls st' = calls st ++ [Requests_get usac_url (Some (where_clause key))].
Proof.
  intros Hkey Hne. unfold search_form470. rewrite Hkey.
  assert (truthy (Some key) = true) as -> by (by destruct key).
  unfold_monad. cbn [negb default from_option id].
  destruct (requests_get _ _ _) as [[response|e] w]; cbn [world calls];
    [|by eexists _, _].
  destruct (status_code response =? 200); [|by eexists _, _].
  destruct (json response) as [[|record data]|e]; try by eexists _, _.
  destruct (nonempty _); by eexists _, _.
Qed.


End MatcherInvariants.


(** ** More on the document locator *)


Lemma slash_lower c : lower_char c = "/"%char → c = "/"%char.
Proof. destruct c as [[] [] [] [] [] [] [] []]; vm_compute; congruence. Qed.






(** The words of the URL pattern. *)
Lemma pdf_url_words u :
  matches pdf_url_re u →
  ∃ L1 o L2 c body L3,
    u = L1 ++ o ++ L2 ++ (c :: body) ++ L3
    ∧ lower L1 = py "http"
    ∧ (o = [] ∨ ∃ x, o = [x] ∧ lower_char x = "s"%char)
    ∧ lower L2 = py "://"
    ∧ no_space c = true ∧ all_of no_space body
    ∧ lower L3 = py ".pdf".
Proof.
  unfold pdf_url_re. cbn [matches].
  intros (L1 & w1 & -> & HL1 & Hw1)%matches_lit_ci.
  cbn [matches] in Hw1. destruct Hw1 as (o & w2 & -> & Ho & Hw2).
  apply matches_lit_ci in Hw2 as (L2 & w3 & -> & HL2 & Hw3).
  cbn [matches rplus] in Hw3.
  destruct Hw3 as (b & w4 & -> & (b1 & b2 & -> & (c & -> & Hc) & Hb2) & Hw4).
  apply matches_lit_ci in Hw4 as (L3 & w5 & -> & HL3 & ->).
  exists L1, o, L2, c, b2, L3. rewrite app_nil_r.
  repeat split; try done.
  destruct Ho as [-> | (x & -> & Hx)]; [by left | right].
  exists x. split; [done|]. unfold ci_char in Hx.
  by apply bool_decide_eq_true in Hx.
Qed.

Lemma notes_url_words notes u :
  re_search pdf_url_re notes = Some u → matches pdf_url_re u ∧ u ≠ [].
Proof.
  intros Hs. apply re_search_suffix in Hs as (pre & suf & -> & Hm).
  apply re_match_group in Hm as (s' & -> & Hw). split; [done|].
  apply pdf_url_words in Hw as (L1 & o & L2 & c & body & L3 & -> & HL1 & _).
  destruct L1; [discriminate | done].
Qed.



Lemma notes_url_nonempty notes url :
  re_search pdf_url_re notes = Some url → url ≠ [].
Proof.
  intros Hu. by apply notes_url_words in Hu as [_ ?].
Qed.

Section LocatorEffects.
Context {W : Type} `{Services W}.

Lemma fetch_attachment_some task_id a p (st st' : state W) :
  fetch_attachment task_id a st = (Returned (Some p), st') →
  ∃ url,
    is_pdf_name (att_name a) = true ∧ att_download_url a = Some url
    ∧ delivered task_id (att_name a) url p st st'.
Proof.
  unfold fetch_attachment, delivered.
  destruct (is_pdf_name _); [|done].
  destruct (att_download_url a) as [url|]; [|done].
  destruct (truthy (Some url)) eqn:Hu; [|done].
  cbn [default from_option id]. unfold_monad.
  destruct (requests_get url None (world st)) as [[response|e] w1] eqn:Hg;
    cbn [world calls]; [|done].
  destruct (status_code response =? 200) eqn:Hs; [|done].
  cbn [world calls].
  destruct (write_file _ _ w1) as [[[]|e] w2] eqn:Hw; [|done].
  intros [= <- <-]. exists url. split; [done|]. split; [done|].
  exists response, w1. apply Nat.eqb_eq in Hs.
  repeat split; try done.
  - by destruct url.
  - cbn [calls]. by rewrite <- app_assoc.
Qed.

Lemma fetch_notes_url_some task_id notes p (st st' : state W) :
  fetch_notes_url task_id notes st = (Returned (Some p), st') →
  ∃ url,
    re_search pdf_url_re notes = Some url
    ∧ delivered task_id (last_segment url) url p st st'.
Proof.
  unfold fetch_notes_url, delivered.
  destruct (nonempty notes); [|done].
  destruct (re_search pdf_url_re notes) as [url|] eqn:Hu; [|done].
  unfold_monad.
  destruct (requests_get url None (world st)) as [[response|e] w1] eqn:Hg;
    cbn [world calls]; [|done].
  destruct (status_code response =? 200) eqn:Hs; [|done].
  cbn [world calls].
  destruct (write_file _ _ w1) as [[[]|e] w2] eqn:Hw; [|done].
  intros [= <- <-]. exists url. split; [done|].
  exists response, w1. apply Nat.eqb_eq in Hs.
  repeat split; try done.
  - apply notes_url_nonempty in Hu. done.
  - cbn [calls]. by rewrite <- app_assoc.
Qed.

Lemma fetch_attachments_some task_id attachments p (st st' : state W) :
  fetch_attachments task_id attachments st = (Returned (Some p), st') →
  ∃ a url cs s1,
    In a attachments
    ∧ is_pdf_name (att_name a) = true ∧ att_download_url a = Some url
    ∧ calls s1 = calls st ++ cs ∧ Forall reading_call cs
    ∧ delivered task_id (att_name a) url p s1 st'.
Proof.
  revert st. induction attachments as [|a rest IH]; intros st; simpl; [done|].
  unfold bind.
  destruct (fetch_attachment_calls task_id a st)
    as (r & s1 & cs1 & Hrun & Hc1 & Hr1 & _).
  rewrite Hrun. destruct r as [q|].
  - intros [= <- <-]. apply fetch_attachment_some in Hrun as (url & Hp & Hu & Hd).
    exists a, url, [], st. rewrite app_nil_r. repeat split; try done.
    by left.
  - intros Hrest. apply IH in Hrest
      as (a' & url & cs & s2 & Hin & Hp & Hu & Hc & Hr & Hd).
    exists a', url, (cs1 ++ cs), s2. rewrite Hc, Hc1, app_assoc.
    repeat split; try done; [by right | by apply Forall_app].
Qed.

(** X7. When the locator returns a path, the last two calls of the run
    are the request of a URL, which was answered with status 200, and the
    write of the body of that answer at the returned path; all the calls
    before only read the task or fetch and save documents.  The URL is the
    download URL of an attachment of the task with a pdf name, or the pdf
    URL of the notes, and the path joins the download directory with the
    task identifier, an underscore and the name of the attachment, or the
    last segment of the URL. *)
Theorem locator_saves_what_it_returns (task_id p : str) (st st' : state W) :
  download_pdf_from_task task_id st = (Returned (Some p), st') →
  ∃ t cs url name s1,
    fst (tasks_find_by_id task_id (world st)) = Returned t
    ∧ calls s1 = calls st ++ Tasks_find_by_id task_id :: cs
    ∧ Forall reading_call cs
    ∧ delivered task_id name url p s1 st'
    ∧ ((∃ a, In a (task_attachments t)
             ∧ is_pdf_name (att_name a) = true
             ∧ att_download_url a = Some url ∧ name = att_name a)
       ∨ (re_search pdf_url_re (task_notes t) = Some url
          ∧ name = last_segment url)).
Proof.
  unfold download_pdf_from_task. unfold try_except, bind at 1, perform.
  destruct (tasks_find_by_id task_id (world st)) as [[t|e] w] eqn:Hfind;
    [|done].
  unfold bind. set (st1 := {| world := w; calls := _ |}).
  destruct (fetch_attachments_calls task_id (task_attachments t) st1)
    as (r & s1 & cs1 & Hrun & Hc1 & Hr1 & _).
  rewrite Hrun. destruct r as [q|].
  - intros [= <- <-].
    apply fetch_attachments_some in Hrun
      as (a & url & cs & s2 & Hin & Hp & Hu & Hc & Hr & Hd).
    exists t, cs, url, (att_name a), s2. repeat split; try done.
    + rewrite Hc. subst st1. cbn [calls]. by rewrite <- app_assoc.
    + left. by exists a.
  - destruct (fetch_notes_url_calls task_id (task_notes t) s1)
      as (r & s2 & cs2 & Hrun2 & _).
    rewrite Hrun2. destruct r as [q|]; [|done]. intros [= <- <-].
    apply fetch_notes_url_some in Hrun2 as (url & Hu & Hd).
    exists t, cs1, url, (last_segment url), s1. repeat split; try done.
    + rewrite Hc1. subst st1. cbn [calls]. by rewrite <- app_assoc.
    + by right.
Qed.

End LocatorEffects.

Lemma saved_path_is_made_of_the_task_and_the_name :
  ∃ name,
    saved_path
    = path_join (temp_download_dir (W := mem_world)) (py "1" ++ py "_" ++ name).
Proof.
  destruct (locator_saves_what_it_returns (py "1") saved_path
              (start world_471_none)
              (snd (download_pdf_from_task (py "1") (start world_471_none))))
    as (t & cs & url & name & s1 & _ & _ & _ & Hd & _).
  - reflexivity.
  - destruct Hd as (response & w1 & _ & _ & _ & Hp & _). by exists name.
Defined.

(** ** More on the task store *)

Section TaskStoreEffects.
Context {W : Type} `{Services W}.

(** X8. A move to Issues or to Manual Follow-up posts its comment whether
    or not the task could be added to the section, and its answer only
    tells whether the comment was posted: a failed move with a posted
    comment answers [True]. *)
Theorem move_answers_for_the_comment
    (task_id reason : str) (st : state W) (sections : list section)
    (s : section) (w1 w2 w3 : W) (o1 o2 : outcome unit) :
  sections_find_by_project (world st) = (Returned sections, w1) →
  sections_add_task (sec_gid s) task_id w1 = (o1, w2) →
  (first_such (names_both "issues") sections s →
   tasks_add_comment task_id (issues_comment reason) w2 = (o2, w3) →
   move_task_to_issues task_id reason st
   = (Returned (returned o2),
      {| world := w3;
         calls := calls st ++ move_calls s task_id (issues_comment reason) |}))
  ∧ (first_such (names_both "manual follow-up") sections s →
     tasks_add_comment task_id (manual_followup_comment reason) w2 = (o2, w3) →
     move_task_to_manual_followup task_id reason st
     = (Returned (returned o2),
        {| world := w3;
           calls := calls st
                    ++ move_calls s task_id (manual_followup_comment reason) |})).
Proof.
  intros Hsec Hadd. split.
  - intros Hs Hcom.
    apply (find_first_such _ _ sections is_issues_section_spec) in Hs.
    unfold move_task_to_issues, move_calls. unfold_monad.
    rewrite Hsec, Hs. cbn [world calls]. rewrite Hadd.
    destruct o1 as [[]|e]; cbn [world calls]; rewrite Hcom;
      destruct o2 as [[]|e']; cbn [returned calls];
      by rewrite <- !app_assoc.
  - intros Hs Hcom.
    apply (find_first_such _ _ sections is_manual_followup_section_spec) in Hs.
    unfold move_task_to_manual_followup, move_calls. unfold_monad.
    rewrite Hsec, Hs. cbn [world calls]. rewrite Hadd.
    destruct o1 as [[]|e]; cbn [world calls]; rewrite Hcom;
      destruct o2 as [[]|e']; cbn [returned calls];
      by rewrite <- !app_assoc.
Qed.

(** X9. The move to Processing posts a comment only when the task could
    not be added to the section: when the addition returns, the answer is
    [True] and no comment is posted; when it raises, the comment that the
    move was simulated is posted, and the answer is [True] if that call
    returned and [False] if it raised too. *)
Theorem processing_falls_back_to_a_comment
    (task_id : str) (st : state W) (sections : list section)
    (s : section) (w1 w2 : W) (o1 : outcome unit) :
  sections_find_by_project (world st) = (Returned sections, w1) →
  first_such (names_both "processing") sections s →
  sections_add_task (sec_gid s) task_id w1 = (o1, w2) →
  let moved :=
    (calls st ++ [Sections_find_by_project])
    ++ [Sections_add_task (sec_gid s) task_id] in
  (returned o1 = true →
   move_task_to_processing task_id st
   = (Returned true, {| world := w2; calls := moved |}))
  ∧ (returned o1 = false →
     ∀ o2 w3,
       tasks_add_comment task_id processing_comment w2 = (o2, w3) →
       move_task_to_processing task_id st
       = (Returned (returned o2),
          {| world := w3;
             calls := moved ++ [Tasks_add_comment task_id processing_comment] |})).
Proof.
  intros Hsec Hs Hadd moved.
  apply (find_first_such _ _ sections is_processing_section_spec) in Hs.
  unfold move_task_to_processing. unfold_monad.
  rewrite Hsec, Hs. cbn [world calls]. rewrite Hadd. split.
  - destruct o1 as [[]|e]; [done|]. discriminate.
  - destruct o1 as [[]|e]; [discriminate|]. intros _ o2 w3 Hcom.
    cbn [world calls]. rewrite Hcom. by destruct o2 as [[]|e'].
Qed.

(** X10. [mark_task_complete] first marks the task completed and then
    posts the comment, which quotes the URL.  When the marking raises, no
    comment is posted and the answer is [False]; when the marking returns,
    the answer tells whether the comment was posted, so that an answer
    [False] may leave a completed task without comment. *)
Theorem completion_marks_before_it_comments
    (task_id : str) (url : option str) (st : state W)
    (o1 : outcome unit) (w1 : W) :
  tasks_update_completed task_id (world st) = (o1, w1) →
  substring (fmt url) (complete_comment url)
  ∧ (returned o1 = false →
     mark_task_complete task_id url st
     = (Returned false,
        {| world := w1; calls := calls st ++ [Tasks_update_completed task_id] |}))
  ∧ (returned o1 = true →
     ∀ o2 w2,
       tasks_add_comment task_id (complete_comment url) w1 = (o2, w2) →
       mark_task_complete task_id url st
       = (Returned (returned o2),
          {| world := w2;
             calls := (calls st ++ [Tasks_update_completed task_id])
                      ++ [Tasks_add_comment task_id (complete_comment url)] |})).
Proof.
  intros Hup. split; [|split].
  - unfold complete_comment, substring.
    eexists (py "✅ Task completed successfully!" ++ nl ++ nl
             ++ py "Form 470 found and linked:" ++ nl), _.
    by rewrite <- !app_assoc.
  - unfold mark_task_complete. unfold_monad. rewrite Hup.
    destruct o1 as [[]|e]; [discriminate | done].
  - unfold mark_task_complete. unfold_monad. rewrite Hup.
    destruct o1 as [[]|e]; [|discriminate]. intros _ o2 w2 Hcom.
    cbn [world calls]. rewrite Hcom. by destruct o2 as [[]|e'].
Qed.

(** X11. [create_manual_review_subtask] answers [True] exactly when it
    asked for the creation of the sub-task and that call returned.  It
    asks for nothing when the task cannot be read, when the project cannot
    be read, or when the project has no workspace or an empty one, and
    answers [False] then. *)
Theorem subtask_needs_a_workspace
    (task_id : str) (form_info : gmap string str) (st : state W) :
  ∃ b st' cs,
    create_manual_review_subtask task_id form_info st = (Returned b, st')
    ∧ calls st' = calls st ++ cs
    ∧ (b = true → created cs = 1)
    ∧ (∀ e w1, tasks_find_by_id task_id (world st) = (Raised e, w1) →
               b = false ∧ cs = [Tasks_find_by_id task_id])
    ∧ (∀ t w1 o w2,
         tasks_find_by_id task_id (world st) = (Returned t, w1) →
         projects_find_by_id w1 = (o, w2) →
         match o with
         | Returned (Some ((_ :: _) as workspace_gid)) =>
             ∃ d o' w3,
               cs = subtask_calls task_id d
               ∧ sub_workspace d = workspace_gid ∧ sub_parent d = task_id
               ∧ tasks_create d w2 = (o', w3) ∧ b = returned o'
         | _ => b = false ∧ created cs = 0
         end).
Proof.
  unfold create_manual_review_subtask, subtask_calls, created. unfold_monad.
  destruct (tasks_find_by_id task_id (world st)) as [[t|e] w1];
    cbn [world calls].
  - destruct (projects_find_by_id w1) as [[workspace_gid|e] w2] eqn:Hfp;
      cbn [world calls].
    + destruct workspace_gid as [[|c ws]|]; cbn [truthy nonempty negb].
      * eexists _, _, _. split; [done|].
        split; [by rewrite <- app_assoc|]. split; [done|]. split; [done|].
        intros ? ? ? ? Ht Hp. injection Ht as <- <-. rewrite Hfp in Hp.
        by injection Hp as <- <-.
      * cbn [default from_option id]. cbv zeta. cbn [world calls].
        destruct (tasks_create _ w2) as [[name|e] w3] eqn:Hc;
          cbn [world calls].
        -- eexists _, _, _. split; [done|].
           split; [by rewrite <- !app_assoc|]. split; [done|]. split; [done|].
           intros ? ? ? ? Ht Hp. injection Ht as <- <-. rewrite Hfp in Hp.
           injection Hp as <- <-. eexists _, _, _.
           split; [done|]. split; [done|]. split; [done|].
           split; [exact Hc | done].
        -- eexists _, _, _. split; [done|].
           split; [by rewrite <- !app_assoc|]. split; [done|]. split; [done|].
           intros ? ? ? ? Ht Hp. injection Ht as <- <-. rewrite Hfp in Hp.
           injection Hp as <- <-. eexists _, _, _.
           split; [done|]. split; [done|]. split; [done|].
           split; [exact Hc | done].
      * eexists _, _, _. split; [done|].
        split; [by rewrite <- app_assoc|]. split; [done|]. split; [done|].
        intros ? ? ? ? Ht Hp. injection Ht as <- <-. rewrite Hfp in Hp.
        by injection Hp as <- <-.
    + eexists _, _, _. split; [done|].
      split; [by rewrite <- app_assoc|]. split; [done|]. split; [done|].
      intros ? ? ? ? Ht Hp. injection Ht as <- <-. rewrite Hfp in Hp.
      by injection Hp as <- <-.
  - eexists _, _, _. split; [done|]. split; [done|]. split; [done|].
    split; [by intros ? ? [= <- <-]|]. by intros ? ? ? ? [=].
Qed.

End TaskStoreEffects.

Lemma issues_move_on_the_board :
  fst (move_task_to_issues (py "1") reason_no_pdf (start world_470))
  = Returned true.
Proof.
  pose (r1 := sections_add_task (sec_gid issues_section) (py "1") world_470).
  pose (r2 := tasks_add_comment (py "1") (issues_comment reason_no_pdf) (snd r1)).
  destruct (move_answers_for_the_comment (py "1") reason_no_pdf
              (start world_470) board issues_section world_470
              (snd r1) (snd r2) (fst r1) (fst r2)) as [Hissues _].
  - reflexivity.
  - reflexivity.
  - rewrite Hissues.
    + reflexivity.
    + apply (find_first_such _ _ board is_issues_section_spec). reflexivity.
    + reflexivity.
Defined.

Lemma processing_move_on_the_board :
  fst (move_task_to_processing (py "1") (start world_470)) = Returned true.
Proof.
  pose (r1 := sections_add_task (sec_gid processing_section) (py "1") world_470).
  destruct (processing_falls_back_to_a_comment (py "1") (start world_470)
              board processing_section world_470 (snd r1) (fst r1))
    as [Hmoved _].
  - reflexivity.
  - apply (find_first_such _ _ board is_processing_section_spec). reflexivity.
  - reflexivity.
  - rewrite Hmoved; reflexivity.
Defined.

Lemma completion_on_the_board :
  fst (mark_task_complete (py "1") (Some form470_pdf) (start world_470))
  = Returned true.
Proof.
  pose (r1 := tasks_update_completed (py "1") world_470).
  pose (r2 := tasks_add_comment (py "1") (complete_comment (Some form470_pdf))
                (snd r1)).
  destruct (completion_marks_before_it_comments (py "1") (Some form470_pdf)
              (start world_470) (fst r1) (snd r1)) as (_ & _ & Hdone).
  - reflexivity.
  - rewrite (Hdone eq_refl (fst r2) (snd r2)); reflexivity.
Defined.

(** ** More on the drivers *)

Lemma extracted_record_key (text : str) :
  form_info_of_text text ≠ ∅ →
  ∃ key, search_number_of (form_info_of_text text) = Some key ∧ key ≠ [].
Proof.
  intros Hne.
  destruct (find_application_number text) as [a|] eqn:Ha;
    [|by apply form_info_empty in Ha].
  destruct (form_info_fields _ _ Ha) as (Happ & Hty & _).
  destruct (application_number_digits _ _ Ha) as [Hane _].
  pose proof (form_info_establishing _ _ Ha) as Hest.
  unfold search_number_of. rewrite Happ, Hest.
  destruct (find_establishing_form470_number _ text) as [e|] eqn:E.
  - destruct (truthy (Some e)) eqn:He.
    + rewrite He. destruct (bool_decide _); simpl; [|by eauto].
      exists e. split; [done|]. by destruct e.
    + simpl. rewrite andb_false_r. eauto.
  - simpl. rewrite andb_false_r. eauto.
Qed.

Lemma reading_call_quiet cs : Forall reading_call cs → Forall quiet cs.
Proof.
  intros Hf. eapply Forall_impl; [exact Hf|]. by intros [].
Qed.

Lemma reading_call_read_only cs : Forall reading_call cs → Forall read_only cs.
Proof. intros Hf. eapply Forall_impl; [exact Hf|]. by intros []. Qed.

Section Runs.
Context {W : Type} `{Services W}.

Lemma processing_move_quiet task_id (st : state W) :
  ∃ b st' cs,
    move_task_to_processing task_id st = (Returned b, st')
    ∧ calls st' = calls st ++ cs ∧ Forall quiet cs.
Proof.
  destruct (move_task_to_processing_calls task_id st)
    as (b & st' & cs & Hrun & Hcalls & Hshape).
  exists b, st', cs. split; [done|]. split; [done|].
  destruct (sections_find_by_project _) as [[sections|e] w];
    [|destruct Hshape as [-> _]; by repeat constructor].
  destruct (List.find _ sections) as [s|];
    [|destruct Hshape as [-> _]; by repeat constructor].
  destruct Hshape as [-> | ->]; unfold move_calls; by repeat constructor.
Qed.

Lemma issues_move_quiet task_id reason (st : state W) :
  ∃ b st' cs,
    move_task_to_issues task_id reason st = (Returned b, st')
    ∧ calls st' = calls st ++ cs ∧ Forall quiet cs.
Proof.
  destruct (issues_move_shape task_id reason st)
    as (b & st' & cs & Hrun & Hcalls & Hshape).
  exists b, st', cs. split; [done|]. split; [done|].
  destruct Hshape as [-> | (s & _ & ->)]; unfold move_calls;
    by repeat constructor.
Qed.

Lemma manual_followup_move_quiet task_id reason (st : state W) :
  ∃ b st' cs,
    move_task_to_manual_followup task_id reason st = (Returned b, st')
    ∧ calls st' = calls st ++ cs ∧ Forall quiet cs.
Proof.
  destruct (manual_followup_move_shape task_id reason st)
    as (b & st' & cs & Hrun & Hcalls & Hshape).
  exists b, st', cs. split; [done|]. split; [done|].
  destruct Hshape as [-> | (s & _ & ->)]; unfold move_calls;
    by repeat constructor.
Qed.

Lemma download_pdf_from_task_trace task_id (st : state W) :
  ∃ r st' cs,
    download_pdf_from_task task_id st = (Returned r, st')
    ∧ calls st' = calls st ++ Tasks_find_by_id task_id :: cs
    ∧ Forall reading_call cs ∧ r ≠ Some [].
Proof.
  unfold download_pdf_from_task. unfold try_except, bind at 1, perform.
  destruct (tasks_find_by_id _ _) as [[t|e] w].
  - unfold bind. set (st1 := {| world := w; calls := _ |}).
    destruct (fetch_attachments_calls task_id (task_attachments t) st1)
      as (r & s1 & cs1 & -> & Hc1 & Hr1 & Hne).
    destruct r as [p|].
    + exists (Some p), s1, cs1. rewrite Hc1. subst st1. cbn [calls].
      by rewrite <- app_assoc.
    + destruct (fetch_notes_url_calls task_id (task_notes t) s1)
        as (r & s2 & cs2 & -> & Hc2 & Hr2 & Hne2).
      exists r, s2, (cs1 ++ cs2). rewrite Hc2, Hc1. subst st1. cbn [calls].
      rewrite <- !app_assoc. repeat split; try done. by apply Forall_app.
  - exists None, {| world := w; calls := calls st ++ [Tasks_find_by_id task_id] |}, [].
    repeat split; try done.
Qed.

Lemma extract_form_info_value pdf_path (st : state W) :
  ∃ form_info st',
    extract_form_info pdf_path st = (Returned form_info, st')
    ∧ calls st' = calls st ++ [Pdf_open pdf_path]
    ∧ (form_info = ∅ ∨ ∃ text, form_info = form_info_of_text text).
Proof.
  unfold extract_form_info. unfold_monad.
  destruct (pdf_pages _ _) as [[pages|e] w]; eexists _, _;
    (split; [done|]); (split; [done|]); eauto.
Qed.

Lemma mark_task_complete_trace task_id url (st : state W) :
  ∃ b st' rest,
    mark_task_complete task_id url st = (Returned b, st')
    ∧ calls st' = calls st ++ Tasks_update_completed task_id :: rest
    ∧ Forall quiet rest.
Proof.
  unfold mark_task_complete. unfold_monad.
  destruct (tasks_update_completed _ _) as [[[]|e] w]; cbn [world calls].
  - destruct (tasks_add_comment _ _ _) as [[[]|e] w']; cbn [world calls];
      eexists _, _, [_]; (split; [done|]); rewrite <- app_assoc;
      (split; [done|]); by repeat constructor.
  - eexists _, _, []. split; [done|]. split; [done|]. constructor.
Qed.

Lemma create_manual_review_subtask_trace task_id form_info (st : state W) :
  ∃ b st' cs,
    create_manual_review_subtask task_id form_info st = (Returned b, st')
    ∧ calls st' = calls st ++ cs
    ∧ Forall (fun c => quiet c ∨ ∃ d, c = Tasks_create d ∧ sub_parent d = task_id)
        cs
    ∧ created cs ≤ 1.
Proof.
  destruct (create_manual_review_subtask_calls task_id form_info st)
    as (b & st' & cs & Hrun & Hcalls & Hshape).
  exists b, st', cs. split; [done|]. split; [done|].
  assert (∀ l, Forall quiet l → created l = 0 →
               Forall (fun c => quiet c
                                ∨ ∃ d, c = Tasks_create d ∧ sub_parent d = task_id) l
               ∧ created l ≤ 1) as Hq.
  { intros l Hl Hc. split; [|lia]. eapply Forall_impl; [exact Hl|]. auto. }
  destruct (tasks_find_by_id _ _) as [[t|e] w1].
  - destruct (projects_find_by_id w1) as [[workspace_gid|e] w2].
    + destruct (truthy workspace_gid).
      * subst cs. unfold subtask_calls, created. simpl. split; [|lia].
        constructor; [by left|]. constructor; [by left|].
        constructor; [|constructor]. right. by eexists.
      * destruct Hshape as [-> _]. apply Hq; [by repeat constructor | done].
    + destruct Hshape as [-> _]. apply Hq; [by repeat constructor | done].
  - destruct Hshape as [-> _]. apply Hq; [by repeat constructor | done].
Qed.

Lemma registry_asked (text : str) (st : state W) :
  form_info_of_text text ≠ ∅ →
  ∃ r st' key,
    search_form470 (form_info_of_text text) st = (Returned r, st')
    ∧ calls st' = calls st ++ [registry_request key].
Proof.
  intros Hne. destruct (extracted_record_key text Hne) as (key & Hkey & Hk).
  destruct (search_result_shape_of_key _ key st Hkey Hk) as (r & st' & Hs & Hc).
  by exists r, st', key.
Qed.


Lemma quiet_creates_nothing cs : Forall quiet cs → created cs = 0.
Proof.
  unfold created. induction 1 as [|c cs Hc _ IH]; [done|].
  destruct c; simpl; done.
Qed.

Lemma created_app cs1 cs2 : created (cs1 ++ cs2) = created cs1 + created cs2.
Proof. unfold created. by rewrite List.filter_app, length_app. Qed.

(** The shape of the run of one task, stage by stage. *)
Lemma process_single_task_trace task_id task_name (st : state W) :
  ∃ r st' cs,
    process_single_task task_id task_name st = (Returned r, st')
    ∧ calls st' = calls st ++ cs
    ∧ In (Tasks_find_by_id task_id) cs
    ∧ ((r = py "ISSUES" ∧ issues_trace cs)
       ∨ (r = py "COMPLETED" ∧ completed_trace task_id cs)
       ∨ (r = py "MANUAL_FOLLOWUP" ∧ follow_up_trace task_id cs)).
Proof.
  destruct (processing_move_quiet task_id st)
    as (b1 & st1 & cs1 & Hmove & Hc1 & Hq1).
  destruct (download_pdf_from_task_trace task_id st1)
    as (p & st2 & cs2 & Hdl & Hc2 & Hr2 & Hpne).
  set (pre := cs1 ++ Tasks_find_by_id task_id :: cs2).
  assert (calls st2 = calls st ++ pre) as Hpre.
  { rewrite Hc2, Hc1. by rewrite <- app_assoc. }
  assert (∀ cs, In (Tasks_find_by_id task_id) (pre ++ cs)) as Hin.
  { intros cs. apply in_or_app. left. apply in_or_app. right. by left. }
  assert (Forall quiet pre) as Hqpre.
  { apply Forall_app. split; [done|]. constructor; [done|].
    by apply reading_call_quiet. }
  clearbody pre. clear Hc1 Hc2 Hq1 Hr2.
  unfold process_single_task, bind. rewrite Hmove, Hdl.
  destruct p as [path|]; cycle 1.
  { destruct (issues_move_quiet task_id reason_no_pdf st2)
      as (b & st' & cs & Hrun & Hc & Hq).
    cbn [truthy]. rewrite Hrun.
    exists (py "ISSUES"), st', (pre ++ cs).
    split; [done|]. split; [by rewrite Hc, Hpre, <- app_assoc|].
    split; [done|]. left. split; [done|]. by apply Forall_app. }
  assert (path ≠ []) as Hpath by (intros ->; by apply Hpne).
  rewrite truthy_path by done. simpl default.
  destruct (extract_form_info_value path st2) as (fi & st3 & Hex & Hc3 & Hfi).
  rewrite Hex.
  destruct (dict_nonempty fi
            && bool_decide (fi !! "form_type" = Some (py "471"))) eqn:Hcond;
    cycle 1.
  { destruct (issues_move_quiet task_id reason_not_471 st3)
      as (b & st' & cs & Hrun & Hc & Hq).
    rewrite Hrun.
    exists (py "ISSUES"), st', (pre ++ Pdf_open path :: cs).
    split; [done|].
    split; [by rewrite Hc, Hc3, Hpre, <- !app_assoc|].
    split; [done|]. left. split; [done|].
    apply Forall_app. split; [done|]. by constructor. }
  apply andb_true_iff in Hcond as [Hd _]. apply dict_nonempty_spec in Hd.
  destruct Hfi as [-> | (text & ->)]; [done|].
  destruct (registry_asked text st3 Hd) as (r & st4 & key & Hs & Hc4).
  rewrite Hs.
  assert (calls st4 = calls st ++ (pre ++ [Pdf_open path]) ++ [registry_request key])
    as Hasked.
  { by rewrite Hc4, Hc3, Hpre, <- !app_assoc. }
  assert (Forall quiet (pre ++ [Pdf_open path])) as Hqpre'.
  { apply Forall_app. split; [done|]. by repeat constructor. }
  destruct (sr_found r).
  - destruct (mark_task_complete_trace task_id (sr_form470_url r) st4)
      as (b & st5 & rest & Hmark & Hc5 & Hq5).
    rewrite Hmark.
    exists (py "COMPLETED"), st5,
      (pre ++ Pdf_open path :: registry_request key
           :: Tasks_update_completed task_id :: rest).
    split; [done|].
    split; [by rewrite Hc5, Hasked, <- !app_assoc|].
    split; [done|]. right; left. split; [done|].
    exists (pre ++ [Pdf_open path]), key, rest.
    split; [by rewrite <- app_assoc|]. done.
  - destruct (manual_followup_move_quiet task_id reason_not_found st4)
      as (b & st5 & cs5 & Hman & Hc5 & Hq5).
    destruct (create_manual_review_subtask_trace task_id (form_info_of_text text) st5)
      as (b' & st6 & cs6 & Hsub & Hc6 & Hq6 & Hn6).
    rewrite Hman, Hsub.
    exists (py "MANUAL_FOLLOWUP"), st6,
      (pre ++ Pdf_open path :: registry_request key :: cs5 ++ cs6).
    split; [done|].
    split; [by rewrite Hc6, Hc5, Hasked, <- !app_assoc|].
    split; [done|]. right; right. split; [done|].
    exists (pre ++ [Pdf_open path]), key, (cs5 ++ cs6).
    split; [by rewrite <- app_assoc|]. split; [done|]. split.
    + apply Forall_app. split; [|done].
      eapply Forall_impl; [exact Hq5|]. auto.
    + rewrite created_app, (quiet_creates_nothing cs5) by done. lia.
Qed.

(** The same for the body of the loop of [process_qa_tasks]. *)
Lemma process_qa_task_trace task_id (st : state W) :
  ∃ st' cs,
    process_qa_task task_id st = (Returned tt, st')
    ∧ calls st' = calls st ++ cs
    ∧ task_trace task_id cs.
Proof.
  destruct (processing_move_quiet task_id st)
    as (b1 & st1 & cs1 & Hmove & Hc1 & Hq1).
  destruct (download_pdf_from_task_trace task_id st1)
    as (p & st2 & cs2 & Hdl & Hc2 & Hr2 & Hpne).
  set (pre := cs1 ++ Tasks_find_by_id task_id :: cs2).
  assert (calls st2 = calls st ++ pre) as Hpre.
  { rewrite Hc2, Hc1. by rewrite <- app_assoc. }
  assert (∀ cs, In (Tasks_find_by_id task_id) (pre ++ cs)) as Hin.
  { intros cs. apply in_or_app. left. apply in_or_app. right. by left. }
  assert (Forall quiet pre) as Hqpre.
  { apply Forall_app. split; [done|]. constructor; [done|].
    by apply reading_call_quiet. }
  clearbody pre. clear Hc1 Hc2 Hq1 Hr2.
  unfold process_qa_task, bind, task_trace. rewrite Hmove, Hdl.
  destruct p as [path|]; cycle 1.
  { destruct (issues_move_quiet task_id reason_no_pdf st2)
      as (b & st' & cs & Hrun & Hc & Hq).
    cbn [truthy]. rewrite Hrun. exists st', (pre ++ cs).
    split; [done|]. split; [by rewrite Hc, Hpre, <- app_assoc|].
    split; [done|]. left. by apply Forall_app. }
  assert (path ≠ []) as Hpath by (intros ->; by apply Hpne).
  rewrite truthy_path by done. simpl default.
  destruct (extract_form_info_value path st2) as (fi & st3 & Hex & Hc3 & Hfi).
  rewrite Hex.
  destruct (dict_nonempty fi) eqn:Hcond; cycle 1.
  { destruct (issues_move_quiet task_id reason_extraction st3)
      as (b & st' & cs & Hrun & Hc & Hq).
    rewrite Hrun. exists st', (pre ++ Pdf_open path :: cs).
    split; [done|].
    split; [by rewrite Hc, Hc3, Hpre, <- !app_assoc|].
    split; [done|]. left.
    apply Forall_app. split; [done|]. by constructor. }
  apply dict_nonempty_spec in Hcond as Hd.
  destruct Hfi as [-> | (text & ->)]; [done|].
  destruct (registry_asked text st3 Hd) as (r & st4 & key & Hs & Hc4).
  rewrite Hs.
  assert (calls st4 = calls st ++ (pre ++ [Pdf_open path]) ++ [registry_request key])
    as Hasked.
  { by rewrite Hc4, Hc3, Hpre, <- !app_assoc. }
  assert (Forall quiet (pre ++ [Pdf_open path])) as Hqpre'.
  { apply Forall_app. split; [done|]. by repeat constructor. }
  destruct (sr_found r).
  - destruct (mark_task_complete_trace task_id (sr_form470_url r) st4)
      as (b & st5 & rest & Hmark & Hc5 & Hq5).
    rewrite Hmark.
    exists st5,
      (pre ++ Pdf_open path :: registry_request key
           :: Tasks_update_completed task_id :: rest).
    split; [done|].
    split; [by rewrite Hc5, Hasked, <- !app_assoc|].
    split; [done|]. right; left.
    exists (pre ++ [Pdf_open path]), key, rest.
    split; [by rewrite <- app_assoc|]. done.
  - destruct (manual_followup_move_quiet task_id reason_not_found st4)
      as (b & st5 & cs5 & Hman & Hc5 & Hq5).
    destruct (create_manual_review_subtask_trace task_id (form_info_of_text text) st5)
      as (b' & st6 & cs6 & Hsub & Hc6 & Hq6 & Hn6).
    rewrite Hman, Hsub.
    exists st6, (pre ++ Pdf_open path :: registry_request key :: cs5 ++ cs6).
    split; [done|].
    split; [by rewrite Hc6, Hc5, Hasked, <- !app_assoc|].
    split; [done|]. right; right.
    exists (pre ++ [Pdf_open path]), key, (cs5 ++ cs6).
    split; [by rewrite <- app_assoc|]. split; [done|]. split.
    + apply Forall_app. split; [|done].
      eapply Forall_impl; [exact Hq5|]. auto.
    + rewrite created_app, (quiet_creates_nothing cs5) by done. lia.
Qed.

Lemma for_each_traces {A} (P : A → list call → Prop) (body : A → M W unit) :
  (∀ x st, ∃ st' cs,
      body x st = (Returned tt, st') ∧ calls st' = calls st ++ cs ∧ P x cs) →
  ∀ l st, ∃ st' css,
    for_each l body st = (Returned tt, st')
    ∧ calls st' = calls st ++ concat css ∧ Forall2 P l css.
Proof.
  intros Hbody l. induction l as [|x l IH]; intros st.
  - exists st, []. split; [done|]. split; [by rewrite app_nil_r | constructor].
  - destruct (Hbody x st) as (st1 & cs & Hrun & Hc & HP).
    destruct (IH st1) as (st2 & css & Hrest & Hc2 & HF).
    exists st2, (cs :: css). simpl. unfold bind. rewrite Hrun, Hrest.
    split; [done|]. split; [by rewrite Hc2, Hc, <- app_assoc|].
    by constructor.
Qed.

(** A loop over the backlog: the listing, then the runs of the tasks of the
    backlog, one after the other. *)
Lemma backlog_loop (P : str → list call → Prop) (body : task → M W unit)
    (st : state W) :
  (∀ t st, ∃ st' cs,
      body t st = (Returned tt, st') ∧ calls st' = calls st ++ cs
      ∧ P (task_gid t) cs) →
  ∃ st' css,
    (qa_tasks <- get_qa_tasks ;;
     if bool_decide (qa_tasks = []) then ret tt else for_each qa_tasks body) st
    = (Returned tt, st')
    ∧ calls st' = calls st ++ Tasks_find_by_project :: concat css
    ∧ match tasks_find_by_project (world st) with
      | (Returned tasks, _) =>
          Forall2 (fun t cs => P (task_gid t) cs)
            (List.filter in_qa_section tasks) css
      | (Raised _, _) => css = []
      end.
Proof.
  intros Hbody. unfold get_qa_tasks. unfold_monad.
  destruct (tasks_find_by_project (world st)) as [[tasks|e] w].
  - case_bool_decide as Hempty.
    + exists {| world := w; calls := calls st ++ [Tasks_find_by_project] |}, [].
      split; [done|]. split; [done|]. rewrite Hempty. constructor.
    + set (st1 := {| world := w; calls := calls st ++ [Tasks_find_by_project] |}).
      destruct (for_each_traces (fun t cs => P (task_gid t) cs) body Hbody
                  (List.filter in_qa_section tasks) st1)
        as (st' & css & Hrun & Hc & HF).
      exists st', css. split; [done|]. split; [|done].
      rewrite Hc. subst st1. cbn [calls]. by rewrite <- app_assoc.
  - exists {| world := w; calls := calls st ++ [Tasks_find_by_project] |}, [].
    cbn [bool_decide]. split; [by rewrite bool_decide_eq_true_2|]. done.
Qed.

Lemma test_qa_task_trace task_id (st : state W) :
  ∃ st' cs,
    test_qa_task task_id st = (Returned tt, st')
    ∧ calls st' = calls st ++ cs
    ∧ In (Tasks_find_by_id task_id) cs ∧ Forall read_only cs.
Proof.
  destruct (download_pdf_from_task_trace task_id st)
    as (p & st2 & cs2 & Hdl & Hc2 & Hr2 & Hpne).
  apply reading_call_read_only in Hr2.
  unfold test_qa_task, bind. rewrite Hdl.
  destruct p as [path|]; cycle 1.
  { exists st2, (Tasks_find_by_id task_id :: cs2). cbn [truthy].
    split; [done|]. split; [done|]. split; [by left | by constructor]. }
  assert (path ≠ []) as Hpath by (intros ->; by apply Hpne).
  rewrite truthy_path by done. simpl default.
  destruct (extract_form_info_value path st2) as (fi & st3 & Hex & Hc3 & Hfi).
  rewrite Hex.
  destruct (dict_nonempty fi) eqn:Hcond; cycle 1.
  { exists st3, (Tasks_find_by_id task_id :: cs2 ++ [Pdf_open path]).
    split; [done|]. split; [by rewrite Hc3, Hc2, <- app_assoc|].
    split; [by left|]. constructor; [done|].
    apply Forall_app. split; [done | by repeat constructor]. }
  apply dict_nonempty_spec in Hcond as Hd.
  destruct Hfi as [-> | (text & ->)]; [done|].
  destruct (registry_asked text st3 Hd) as (r & st4 & key & Hs & Hc4).
  rewrite Hs.
  exists st4,
    (Tasks_find_by_id task_id :: cs2 ++ [Pdf_open path; registry_request key]).
  split; [by destruct (sr_found r)|].
  split; [rewrite Hc4, Hc3, Hc2, <- !app_assoc; done|].
  split; [by left|]. constructor; [done|].
  apply Forall_app. split; [done | by repeat constructor].
Qed.


(** X13. [process_qa_tasks_intelligently] never raises.  It lists the tasks
    of the project once and then runs the tasks of the backlog one after
    the other in the order of the listing, whatever became of the tasks
    before: each of them is read, and its run has one of the three shapes
    of a single run.  When the listing fails or the backlog is empty
    nothing else is called. *)
Theorem intelligent_loop_runs_every_task (st : state W) :
  ∃ st' css,
    process_qa_tasks_intelligently st = (Returned tt, st')
    ∧ calls st' = calls st ++ Tasks_find_by_project :: concat css
    ∧ match tasks_find_by_project (world st) with
      | (Returned tasks, _) =>
          Forall2 (fun t cs => task_trace (task_gid t) cs)
            (List.filter in_qa_section tasks) css
      | (Raised _, _) => css = []
      end.
Proof.
  unfold process_qa_tasks_intelligently. apply (backlog_loop task_trace).
  intros t st0.
  destruct (process_single_task_trace (task_gid t) (task_name t) st0)
    as (r & st' & cs & Hrun & Hc & Hin & Hshape).
  exists st', cs. unfold bind. rewrite Hrun. split; [done|]. split; [done|].
  split; [done|]. destruct Hshape as [[_ Hq] | [[_ Hq] | [_ Hq]]]; auto.
Qed.

(** X14. [process_qa_tasks] never raises, and its handler is never
    entered: it lists the tasks of the project once and then runs the tasks
    of the backlog one after the other in the order of the listing, each
    run reading its task and having one of the three shapes of a single
    run.  When the listing fails or the backlog is empty nothing else is
    called. *)
Theorem qa_loop_runs_every_task (st : state W) :
  ∃ st' css,
    process_qa_tasks st = (Returned tt, st')
    ∧ calls st' = calls st ++ Tasks_find_by_project :: concat css
    ∧ match tasks_find_by_project (world st) with
      | (Returned tasks, _) =>
          Forall2 (fun t cs => task_trace (task_gid t) cs)
            (List.filter in_qa_section tasks) css
      | (Raised _, _) => css = []
      end.
Proof.
  destruct (backlog_loop task_trace (fun task => process_qa_task (task_gid task))
              st (fun t st0 => process_qa_task_trace (task_gid t) st0))
    as (st' & css & Hrun & Hc & HF).
  exists st', css. unfold process_qa_tasks, try_except. by rewrite Hrun.
Qed.

(** X15. [test_qa_processing] never raises and changes nothing in the task
    store: after the listing, every call it makes reads a task, fetches or
    saves a document, opens one or asks the registry; no task is added to a
    section, commented, completed or created.  Every task of the backlog
    is read, in the order of the listing. *)
Theorem manual_check_only_reads (st : state W) :
  ∃ st' css,
    test_qa_processing st = (Returned tt, st')
    ∧ calls st' = calls st ++ Tasks_find_by_project :: concat css
    ∧ Forall read_only (Tasks_find_by_project :: concat css)
    ∧ match tasks_find_by_project (world st) with
      | (Returned tasks, _) =>
          Forall2 (fun t cs => In (Tasks_find_by_id (task_gid t)) cs)
            (List.filter in_qa_section tasks) css
      | (Raised _, _) => css = []
      end.
Proof.
  destruct (backlog_loop
              (fun task_id cs => In (Tasks_find_by_id task_id) cs
                                 ∧ Forall read_only cs)
              (fun task => test_qa_task (task_gid task))
              st (fun t st0 => test_qa_task_trace (task_gid t) st0))
    as (st' & css & Hrun & Hc & HF).
  exists st', css. unfold test_qa_processing, try_except. rewrite Hrun.
  split; [done|]. split; [done|].
  assert (∀ l, Forall2 (fun (t : task) cs =>
                          In (Tasks_find_by_id (task_gid t)) cs
                          ∧ Forall read_only cs) l css →
               Forall read_only (concat css)
               ∧ Forall2 (fun t cs => In (Tasks_find_by_id (task_gid t)) cs)
                   l css) as Hall.
  { clear. intros l HF. induction HF as [|t cs l css [Hin Hr] _ [IH1 IH2]].
    - split; constructor.
    - split; [simpl; by apply Forall_app | by constructor]. }
  destruct (tasks_find_by_project (world st)) as [[tasks|e] w].
  - destruct (Hall _ HF) as [Hr HF']. split; [by constructor | done].
  - subst css. split; [by repeat constructor | done].
Qed.

End Runs.
